(** * Sales Health Monitor: the JSON-to-SQL converter

    A shallow embedding of [MySql/JSON_Scripts/generate_ml_baselines_sql.py]
    (class [MLBaselinesConverter]) and the properties of its value
    sanitizer, record extractors, batch emitter and orchestrator.

    Conventions of the embedding:
    - a parsed JSON document is a [value]; a Python [dict] is an
      association list in insertion order (the order [items()] iterates
      in), looked up by first match. [json.load] never returns a dict
      with a repeated key; no statement below needs that assumption;
    - a Python [int] is a [Z], a [float] a binary64 [float] of the
      kernel, a [str] a [string] (its UTF-8 bytes: the code only looks
      for ASCII characters in it);
    - an exception is an [exn]; code that may raise returns an [outcome];
    - [self.sql_sections] and [self.section4_header_written] are
      threaded through the state-and-exception monad [M], together with
      the content of the output file;
    - the file system and the clock are an [environment];
    - console output ([print], taken to succeed) and the fields kept for
      reporting only ([file_stats], [total_json_size_mb],
      [processed_count]) are left out. *)

From Stdlib Require Import ZArith List Sorted String Ascii Bool Arith Lia.
From Stdlib Require Import Floats Uint63 DecimalString.
Import ListNotations.

Set Warnings "-inexact-float,-register-all,-abstract-large-number".

Open Scope list_scope.
Open Scope string_scope.

(* ================================================================= *)
(** ** Text helpers *)

(** The double-quote character, and the two line breaks the sanitizer
    replaces. *)
Definition dquote : ascii := "034"%char.
Definition newline : ascii := "010"%char.
Definition carriage_return : ascii := "013"%char.

Definition str1 (c : ascii) : string := String c EmptyString.

(** [s.replace(c, by)] for a one-character pattern [c]. *)
Fixpoint replace_char (c : ascii) (by_ : string) (s : string) : string :=
  match s with
  | EmptyString => EmptyString
  | String a rest =>
      if Ascii.eqb a c then by_ ++ replace_char c by_ rest
      else String a (replace_char c by_ rest)
  end.

(** [sep.join(parts)]. *)
Definition join (sep : string) (parts : list string) : string :=
  String.concat sep parts.

Fixpoint contains_char (c : ascii) (s : string) : bool :=
  match s with
  | EmptyString => false
  | String a rest => Ascii.eqb a c || contains_char c rest
  end.

Fixpoint last_char (s : string) : option ascii :=
  match s with
  | EmptyString => None
  | String a EmptyString => Some a
  | String _ rest => last_char rest
  end.

Definition ends_with_semicolon (s : string) : bool :=
  match last_char s with
  | Some c => Ascii.eqb c ";"%char
  | None => false
  end.

Fixpoint zeros (n : nat) : string :=
  match n with
  | O => EmptyString
  | S k => String "0"%char (zeros k)
  end.

(** [str(n)] for a non-negative index and [str(z)] for an [int]. *)
Definition dec_nat (n : nat) : string := NilZero.string_of_uint (Nat.to_uint n).
Definition dec_Z (z : Z) : string := NilZero.string_of_int (Z.to_int z).

(** [f'{i:06d}']: decimal, padded with zeros on the left to six places. *)
Definition pad6 (i : nat) : string :=
  let s := dec_nat i in
  zeros (6 - String.length s) ++ s.

(* ================================================================= *)
(** ** Parsed documents *)

(** What [json.load] returns: [None], [bool], [int], [float], [str],
    [list] or [dict]. *)
Inductive value : Type :=
  | VNone
  | VBool (b : bool)
  | VInt (z : Z)
  | VFloat (f : float)
  | VStr (s : string)
  | VList (items : list value)
  | VDict (entries : list (string * value)).

Definition record : Type := list (string * value).

(** Python truthiness: [bool(v)]. A float is falsy when it equals zero
    (either sign); [nan] is truthy. *)
Definition truthy (v : value) : bool :=
  match v with
  | VNone => false
  | VBool b => b
  | VInt z => negb (Z.eqb z 0)
  | VFloat f => negb (PrimFloat.eqb f 0%float)
  | VStr s => negb (String.eqb s EmptyString)
  | VList l => match l with [] => false | _ => true end
  | VDict d => match d with [] => false | _ => true end
  end.

Definition is_dict (v : value) : bool :=
  match v with VDict _ => true | _ => false end.
Definition is_list (v : value) : bool :=
  match v with VList _ => true | _ => false end.

(** [isinstance(v, (int, float))]: in Python [bool] is a subclass of
    [int], so both booleans pass this test. *)
Definition isinstance_int_float (v : value) : bool :=
  match v with
  | VInt _ | VFloat _ | VBool _ => true
  | _ => false
  end.

Definition isinstance_bool (v : value) : bool :=
  match v with VBool _ => true | _ => false end.

(** [key in d] and [d[key]]. *)
Fixpoint lookup (d : record) (key : string) : option value :=
  match d with
  | [] => None
  | (k, v) :: rest => if String.eqb k key then Some v else lookup rest key
  end.

Definition has_key (d : record) (key : string) : bool :=
  match lookup d key with Some _ => true | None => false end.

(** [d.get(key)] and [d.get(key, default)]. *)
Definition get (d : record) (key : string) : value :=
  match lookup d key with Some v => v | None => VNone end.

Definition get_default (d : record) (key : string) (default : value) : value :=
  match lookup d key with Some v => v | None => default end.

(** [a or b]. *)
Definition py_or (a b : value) : value := if truthy a then a else b.

(* ================================================================= *)
(** ** Exceptions *)

Inductive exn : Type :=
  | TypeError
  | OverflowError.

Inductive outcome (A : Type) : Type :=
  | Returned (a : A)
  | Raised (e : exn).
Arguments Returned {A} a.
Arguments Raised {A} e.

Definition obind {A B} (x : outcome A) (k : A -> outcome B) : outcome B :=
  match x with
  | Returned a => k a
  | Raised e => Raised e
  end.

(* ================================================================= *)
(** ** Numbers *)

(** [float(z)] for an [int]: the nearest binary64 (ties to even);
    [OverflowError] when the rounded value does not fit. *)
Definition float_of_Z (z : Z) : outcome float :=
  let n := Z.abs z in
  let bits := (Z.log2 n + 1)%Z in
  let sh := Z.max 0 (bits - 53) in
  let q := Z.shiftr n sh in
  let r := Z.land n (Z.ones sh) in
  let half := Z.shiftl 1 (sh - 1) in
  let q' :=
    if (sh =? 0)%Z then q
    else if (half <? r)%Z || ((r =? half)%Z && Z.odd q) then (q + 1)%Z
    else q in
  let x := Z.ldexp (PrimFloat.of_uint63 (Uint63.of_Z q')) sh in
  if PrimFloat.is_infinity x then Raised OverflowError
  else Returned (if (z <? 0)%Z then PrimFloat.opp x else x).

(** [float(v)] for a value that passed [isinstance(v, (int, float))]. *)
Definition py_float (v : value) : outcome float :=
  match v with
  | VInt z => float_of_Z z
  | VBool b => Returned (if b then 1%float else 0%float)
  | VFloat f => Returned f
  | _ => Raised TypeError
  end.

(** [v * c] for a float constant [c]: numbers are converted to [float]
    and multiplied; a [str] or [list] cannot be repeated a non-integer
    number of times, and [None] and [dict] have no product. *)
Definition py_mul_float (v : value) (c : float) : outcome value :=
  match v with
  | VInt _ | VBool _ | VFloat _ =>
      obind (py_float v) (fun x => Returned (VFloat (PrimFloat.mul x c)))
  | _ => Raised TypeError
  end.

(* ================================================================= *)
(** ** Python's text for floats and quoted strings *)

(** The properties of the converter are proved for any rendering of
    floats and of quoted strings (the two variables of section
    [Converter]); the two functions of this part, written after
    Python's [repr], give the examples a rendering to run with. *)

(** [x * 10^k] when [k] is positive and [x] otherwise: a quotient is
    compared with a power of ten by putting the power on the side where
    it is a whole number. *)
Definition scale10 (x : Z) (k : Z) : Z := (x * 10 ^ Z.max 0 k)%Z.

(** The least [k], from [k0] upward, with [num / den < 10^k]. *)
Fixpoint decimal_point (fuel : nat) (num den k : Z) : Z :=
  match fuel with
  | O => k
  | S f =>
      if (scale10 num (- k) <? scale10 den k)%Z then k
      else decimal_point f num den (k + 1)
  end.

(** The shortest digit string, of [n] digits or more, that names a
    number of the rounding interval [[lo, hi]] of [v] (all three over
    the denominator [den]; the ends belong to the interval when
    [closed]); of two such strings of one length, the nearer to [v]. *)
Fixpoint shortest_digits (fuel : nat) (n : Z) (v lo hi den : Z) (closed : bool) (k : Z)
  : Z * Z :=
  let s := (k - n)%Z in
  let v' := scale10 v (- s) in
  let lo' := scale10 lo (- s) in
  let hi' := scale10 hi (- s) in
  let q := scale10 den s in
  let d_lo := (v' / q)%Z in
  let d_hi := (d_lo + 1)%Z in
  let inside d :=
    if closed then ((lo' <=? d * q) && (d * q <=? hi'))%Z
    else ((lo' <? d * q) && (d * q <? hi'))%Z in
  let pick d := if (d =? 10 ^ n)%Z then (1%Z, (k + 1)%Z) else (d, k) in
  match fuel with
  | O => pick d_lo
  | S f =>
      match inside d_lo, inside d_hi with
      | true, true =>
          match (v' - d_lo * q ?= d_hi * q - v')%Z with
          | Lt => pick d_lo
          | Gt => pick d_hi
          | Eq => if Z.even d_lo then pick d_lo else pick d_hi
          end
      | true, false => pick d_lo
      | false, true => pick d_hi
      | false, false => shortest_digits f (n + 1) v lo hi den closed k
      end
  end.

Fixpoint strip_zeros (fuel : nat) (d : Z) : Z :=
  match fuel with
  | O => d
  | S f => if (d mod 10 =? 0)%Z && negb (d =? 0)%Z then strip_zeros f (d / 10) else d
  end.

(** The digits [ds] and the position [decpt] of the decimal point
    ([0.ds * 10^decpt]) laid out as [repr] does: plain for
    [-4 < decpt <= 16], with an exponent otherwise. *)
Definition layout_digits (ds : string) (decpt : Z) : string :=
  let n := Z.of_nat (String.length ds) in
  if ((decpt <=? -4) || (16 <? decpt))%Z then
    let e := (decpt - 1)%Z in
    let mantissa :=
      match ds with
      | String c EmptyString => ds
      | String c rest => String c ("." ++ rest)
      | EmptyString => ds
      end in
    let digits := dec_Z (Z.abs e) in
    mantissa ++ "e" ++ (if (e <? 0)%Z then "-" else "+")
             ++ (if (Z.abs e <? 10)%Z then "0" ++ digits else digits)
  else if (decpt <=? 0)%Z then
    "0." ++ zeros (Z.to_nat (- decpt)) ++ ds
  else if (decpt <? n)%Z then
    substring 0 (Z.to_nat decpt) ds ++ "."
      ++ substring (Z.to_nat decpt) (Z.to_nat (n - decpt)) ds
  else
    ds ++ zeros (Z.to_nat (decpt - n)) ++ ".0".

(** [repr] of the positive float [m * 2^e]. *)
Definition repr_finite (m : positive) (e : Z) : string :=
  let unit := Z.shiftl 1 (Z.max 0 e) in
  let den := Z.shiftl 4 (Z.max 0 (- e)) in
  let v := (4 * Zpos m * unit)%Z in
  let hi := (v + 2 * unit)%Z in
  let lo :=
    if (Zpos m =? 2 ^ 52)%Z && (-1074 <? e)%Z then (v - unit)%Z
    else (v - 2 * unit)%Z in
  let b := (Z.log2 v - Z.log2 den - 1)%Z in
  let k0 := if (b <? 0)%Z then (b * 30103 / 100000 - 1)%Z else (b * 30102 / 100000)%Z in
  let k := decimal_point 10 v den k0 in
  let '(d, decpt) := shortest_digits 17 1 v lo hi den (Z.even (Zpos m)) k in
  layout_digits (dec_Z (strip_zeros 17 d)) decpt.

(** [repr(x)] of a float. *)
Definition python_float_repr (x : float) : string :=
  match Prim2SF x with
  | S754_nan => "nan"
  | S754_infinity s => if s then "-inf" else "inf"
  | S754_zero s => if s then "-0.0" else "0.0"
  | S754_finite s m e => (if s then "-" else "") ++ repr_finite m e
  end.

Definition hex_digit (n : nat) : ascii :=
  match n with
  | 10 => "a" | 11 => "b" | 12 => "c" | 13 => "d" | 14 => "e" | 15 => "f"
  | _ => ascii_of_nat (48 + n)
  end%char.

(** [repr(s)] of a string: single quotes unless the text has a single
    quote and no double quote; the backslash, the chosen quote and the
    control characters are escaped. A byte above 127 is copied, which
    is what [repr] does for the printable characters beyond ASCII; the
    characters beyond ASCII that are not printable, which [repr] writes
    as escapes, are not covered. The theorems hold for every [str_repr];
    this instance serves the examples, whose texts are ASCII. *)
Definition python_str_repr (s : string) : string :=
  let quote :=
    if contains_char "'"%char s && negb (contains_char dquote s)
    then dquote else "'"%char in
  let escape :=
    fix escape (t : string) : string :=
      match t with
      | EmptyString => EmptyString
      | String c rest =>
          let n := nat_of_ascii c in
          (if Ascii.eqb c "\"%char then "\\"
           else if Ascii.eqb c quote then String "\"%char (str1 quote)
           else if Ascii.eqb c newline then "\n"
           else if Ascii.eqb c carriage_return then "\r"
           else if Ascii.eqb c "009"%char then "\t"
           else if (n <? 32)%nat || (n =? 127)%nat
                then "\x" ++ String (hex_digit (n / 16)) (str1 (hex_digit (n mod 16)))
           else str1 c) ++ escape rest
      end in
  String quote (escape s ++ str1 quote).

(* ================================================================= *)
(** ** The fixed text of the output document *)

(** [generate_header]: the two fields are [datetime.now()] formatted as
    a date and as a date and time. *)
Definition generate_header (today now : string) : string :=
  "/*
=============================================================
SALES HEALTH MONITOR - ML BASELINES INTEGRATION SCRIPT
=============================================================

Project: Sales Health Monitor - Phase 5 MySQL Integration
Purpose: Import ML baseline metrics from Phase 3/4 EDA analysis
Author: Chirag Suri
Created: " ++ today ++ "
Generated: " ++ now ++ "

Prerequisites:
- Database setup completed via database_setup.sql
- Core data imported via import_core_data.sql
- JSON baseline files available from Phase 3/4 analysis
- MySQL Workbench connected as sales_admin user

Expected Data Integration:
- ML baseline metrics across multiple dimensions
- Customer anomaly records with behavioral flags
- Segment performance matrix (channels x regions)
- Category and product baselines with thresholds

This script is IDEMPOTENT - safe to run multiple times

=============================================================
*/

-- =============================================================
-- DATABASE CONNECTION & VERIFICATION
-- =============================================================

USE sales_health_monitor;
SELECT DATABASE() as current_database;
SELECT USER();

-- Verify existing table structure
SHOW TABLES;

-- Check current table status
SELECT COUNT(*) as current_baseline_count FROM ml_baselines;

-- =============================================================
-- AUXILIARY TABLES CREATION WITH ENHANCED SCHEMA
-- =============================================================

-- Create auxiliary tables for complex ML baseline data
-- Following the hybrid approach: main ml_baselines + targeted auxiliaries

-- Table 1: Customer Anomalies (from behavioral_anomalies.json) - ENHANCED SCHEMA
CREATE TABLE IF NOT EXISTS customer_anomalies (
    anomaly_id INT AUTO_INCREMENT PRIMARY KEY COMMENT 'Unique anomaly record identifier',
    customer_id VARCHAR(20) COMMENT 'Customer with anomaly flags',
    customer_segment ENUM('Premium', 'Standard', 'Budget') COMMENT 'Customer segment classification',
    value_tier VARCHAR(25) COMMENT 'Customer value tier classification',
    severity VARCHAR(20) COMMENT 'Anomaly severity: Normal, Low, Medium, High, Critical',
    flags INT DEFAULT 0 COMMENT 'Number of anomaly flags detected',
    types TEXT COMMENT 'Comma-separated anomaly types detected',
    last_updated TIMESTAMP DEFAULT CURRENT_TIMESTAMP ON UPDATE CURRENT_TIMESTAMP,
    INDEX idx_customer (customer_id) COMMENT 'Customer anomaly lookup',
    INDEX idx_severity (severity) COMMENT 'Severity-based filtering',
    INDEX idx_segment (customer_segment) COMMENT 'Segment-based analysis'
) ENGINE=InnoDB COMMENT='Customer behavioral anomalies from Phase 4 analysis - Enhanced Schema';

-- Table 2: Customer Baselines (from customer_baseline_comprehensive.json) - ENHANCED SCHEMA
CREATE TABLE IF NOT EXISTS customer_baselines (
    baseline_id INT AUTO_INCREMENT PRIMARY KEY COMMENT 'Unique customer baseline identifier',
    customer_id VARCHAR(20) COMMENT 'Customer identifier',
    health_score DECIMAL(5,2) COMMENT 'Customer health score (0-100)',
    frequency_score INT COMMENT 'RFM frequency component',
    monetary_value DECIMAL(15,4) COMMENT 'RFM monetary component',
    recency_days INT COMMENT 'Days since last transaction',
    value_tier VARCHAR(20) COMMENT 'Customer value classification',
    activity_segment VARCHAR(25) COMMENT 'Activity segment: Champions, Loyal Customers, etc.',
    clv_score DECIMAL(15,4) COMMENT 'Customer Lifetime Value score',
    customer_health_score DECIMAL(5,2) COMMENT '0-100 health score',
    customer_segment ENUM('Premium', 'Standard', 'Budget') COMMENT 'Customer segment classification',
    last_updated TIMESTAMP DEFAULT CURRENT_TIMESTAMP ON UPDATE CURRENT_TIMESTAMP,
    INDEX idx_customer (customer_id) COMMENT 'Customer baseline lookup',
    INDEX idx_health_score (health_score) COMMENT 'Health score analysis',
    INDEX idx_value_tier (value_tier) COMMENT 'Value tier segmentation',
    INDEX idx_activity_segment (activity_segment) COMMENT 'Activity segment analysis'
) ENGINE=InnoDB COMMENT='Comprehensive customer baseline metrics from Phase 4 - Enhanced Schema';

-- Table 3: Segment Performance Matrix (from customer_segment_baselines.json)
CREATE TABLE IF NOT EXISTS segment_performance (
    performance_id INT AUTO_INCREMENT PRIMARY KEY COMMENT 'Unique performance record identifier',
    segment VARCHAR(20) COMMENT 'Customer segment: Premium, Standard, Budget',
    channel VARCHAR(50) COMMENT 'Sales channel performance',
    region VARCHAR(20) COMMENT 'Geographic region',
    total_revenue DECIMAL(15,4) COMMENT 'Total revenue for segment-channel-region',
    transaction_count INT COMMENT 'Number of transactions',
    avg_transaction_value DECIMAL(10,4) COMMENT 'Average transaction value',
    market_share_pct DECIMAL(5,2) COMMENT 'Market share percentage',
    last_updated TIMESTAMP DEFAULT CURRENT_TIMESTAMP ON UPDATE CURRENT_TIMESTAMP,
    INDEX idx_segment (segment) COMMENT 'Segment-based analysis',
    INDEX idx_channel (channel) COMMENT 'Channel performance queries',
    INDEX idx_region (region) COMMENT 'Regional performance analysis'
) ENGINE=InnoDB COMMENT='Segment-channel-region performance matrix from Phase 4';

-- Verify auxiliary tables creation
SHOW TABLES;

-- =============================================================
-- ML BASELINES DATA IMPORT PREPARATION
-- =============================================================

-- Clear existing ML baseline data for fresh import (idempotent design)
TRUNCATE TABLE ml_baselines;
TRUNCATE TABLE customer_anomalies;
TRUNCATE TABLE customer_baselines;
TRUNCATE TABLE segment_performance;

-- Reset auto-increment counters
ALTER TABLE ml_baselines AUTO_INCREMENT = 1;
ALTER TABLE customer_anomalies AUTO_INCREMENT = 1;
ALTER TABLE customer_baselines AUTO_INCREMENT = 1;
ALTER TABLE segment_performance AUTO_INCREMENT = 1;

-- Confirm cleanup completed
SELECT
    'After Cleanup' as section,
    (SELECT COUNT(*) FROM ml_baselines) AS ml_baselines_count,
    (SELECT COUNT(*) FROM customer_anomalies) AS anomalies_count,
    (SELECT COUNT(*) FROM customer_baselines) AS customer_baselines_count,
    (SELECT COUNT(*) FROM segment_performance) AS segment_performance_count;

".

(** [generate_footer]. *)
Definition generate_footer : string :=
  "

-- =============================================================
-- IMPORT VALIDATION & SUMMARY
-- =============================================================

SELECT 'ML Baselines Import Complete!' as status;

-- Final record counts
SELECT
    (SELECT COUNT(*) FROM ml_baselines) as ml_baselines_count,
    (SELECT COUNT(*) FROM customer_anomalies) as customer_anomalies_count,
    (SELECT COUNT(*) FROM customer_baselines) as customer_baselines_count,
    (SELECT COUNT(*) FROM segment_performance) as segment_performance_count;

-- Sample data verification
SELECT 'Sample ML Baselines:' as section;
SELECT * FROM ml_baselines LIMIT 5;

SELECT 'Sample Customer Anomalies:' as section;  
SELECT * FROM customer_anomalies LIMIT 5;

SELECT 'Sample Customer Baselines:' as section;
SELECT * FROM customer_baselines LIMIT 5;

SELECT 'Sample Segment Performance:' as section;
SELECT * FROM segment_performance LIMIT 5;

-- Completion timestamp
SELECT NOW() as import_completed;

/*
=============================================================
CONSOLIDATED IMPORT COMPLETE
=============================================================

✅ All ML baseline data successfully imported
✅ Database ready for Phase 5 KPI development  
✅ Automated monitoring thresholds configured
✅ Customer intelligence framework established

Next Steps:
- Verify data integrity with sample queries above
- Begin KPI view development
- Prepare Power BI integration
- Configure automated alert triggers

=============================================================
*/

".

(* ================================================================= *)
(** ** The converter's state *)

(** The two fields of [self] the processing methods update, and the
    content of the output file once it has been written. *)
Record state : Type := mk_state {
  sql_sections : list string;
  section4_header_written : bool;
  output_file : option string
}.

(** [__init__]. *)
Definition init : state :=
  {| sql_sections := []; section4_header_written := false; output_file := None |}.

(** A method: it returns a result and a new state, or raises. *)
Definition M (A : Type) : Type := state -> outcome (A * state).

Definition ret {A} (a : A) : M A := fun st => Returned (a, st).

Definition bind {A B} (m : M A) (k : A -> M B) : M B :=
  fun st =>
    match m st with
    | Returned (a, st') => k a st'
    | Raised e => Raised e
    end.

Definition lift {A} (x : outcome A) : M A :=
  fun st =>
    match x with
    | Returned a => Returned (a, st)
    | Raised e => Raised e
    end.

Notation "x <- c1 ;; c2" := (bind c1 (fun x => c2))
  (at level 61, c1 at next level, right associativity).
Notation "c1 ;; c2" := (bind c1 (fun _ => c2))
  (at level 61, right associativity).

(** [self.sql_sections.append(s)]. *)
Definition append (s : string) : M unit :=
  fun st =>
    Returned (tt, {| sql_sections := sql_sections st ++ [s];
                     section4_header_written := section4_header_written st;
                     output_file := output_file st |}).

Definition header_written : M bool :=
  fun st => Returned (section4_header_written st, st).

Definition set_header_written : M unit :=
  fun st =>
    Returned (tt, {| sql_sections := sql_sections st;
                     section4_header_written := true;
                     output_file := output_file st |}).

(** [for x in l: body(x)]. *)
Fixpoint for_each {A} (l : list A) (body : A -> M unit) : M unit :=
  match l with
  | [] => ret tt
  | x :: rest => body x ;; for_each rest body
  end.

(** The same loop for code that only builds a list and may raise. *)
Fixpoint collect {A B} (f : A -> outcome (list B)) (l : list A) : outcome (list B) :=
  match l with
  | [] => Returned []
  | x :: rest =>
      obind (f x) (fun ys => obind (collect f rest) (fun zs => Returned (ys ++ zs)%list))
  end.

(* ================================================================= *)
(** ** The batch emitter *)

Definition batch_size : nat := 1000.

(** [range(start, stop, step)] for a positive step, as the loop that
    yields [start] and adds [step] while the index is below [stop];
    [stop] rounds of it are enough. *)
Fixpoint range_from (fuel start stop step : nat) : list nat :=
  match fuel with
  | O => []
  | S fuel' =>
      if (start <? stop)%nat then start :: range_from fuel' (start + step) stop step
      else []
  end.

Definition range_step (stop step : nat) : list nat :=
  range_from stop 0 stop step.

(** [l[i:j]]. *)
Definition slice {A} (l : list A) (i j : nat) : list A :=
  firstn (j - i) (skipn i l).

(** The groups the batching loop cuts [values] into. *)
Definition batches (values : list string) : list (list string) :=
  map (fun i => slice values i (i + batch_size))
      (range_step (List.length values) batch_size).

(** One [INSERT] statement as the two sections the source appends. *)
Definition insert_statement (insert_into : string) (rows : list string) : M unit :=
  append insert_into ;;
  append (join (String "," (str1 newline)) rows ++ ";").

(** The [if values:] block of the anomaly and customer-baseline methods:
    one statement per batch, then an empty section. *)
Definition emit_batched (insert_into : string) (values : list string) : M unit :=
  match values with
  | [] => ret tt
  | _ =>
      for_each (batches values) (insert_statement insert_into) ;;
      append EmptyString
  end.

(** The [if values:] block of the segment-performance and ML-baseline
    methods: all rows in one statement, then an empty section. *)
Definition emit_single (insert_into : string) (values : list string) : M unit :=
  match values with
  | [] => ret tt
  | _ =>
      insert_statement insert_into values ;;
      append EmptyString
  end.

(* ================================================================= *)
(** ** Section banners and statement heads *)

Definition anomalies_banner : string :=
  "
-- ===============================================================
-- SECTION 1: BEHAVIORAL ANOMALIES → customer_anomalies
-- ===============================================================".

Definition customer_baselines_banner : string :=
  "
-- ===============================================================
-- SECTION 2: CUSTOMER BASELINES → customer_baselines  
-- ===============================================================".

Definition segment_performance_banner : string :=
  "
-- ===============================================================
-- SECTION 3: SEGMENT PERFORMANCE → segment_performance
-- ===============================================================".

Definition ml_baselines_banner : string :=
  "
-- ===============================================================
-- SECTION 4: ML BASELINES → ml_baselines (consolidated)
-- ===============================================================".

Definition anomalies_insert : string :=
  "INSERT INTO customer_anomalies (customer_id, customer_segment, value_tier, severity, flags, types) VALUES".

Definition customer_baselines_insert : string :=
  "INSERT INTO customer_baselines (customer_id, health_score, frequency_score, monetary_value, recency_days, value_tier, activity_segment, clv_score, customer_health_score, customer_segment) VALUES".

Definition segment_performance_insert : string :=
  "INSERT INTO segment_performance (segment, channel, region, total_revenue, transaction_count, avg_transaction_value, market_share_pct) VALUES".

Definition ml_baselines_insert : string :=
  "INSERT INTO ml_baselines (dimension, metric_name, baseline_value, threshold_upper, threshold_lower, data_source) VALUES".

(* ================================================================= *)
(** ** Rendering values as text *)

Section Converter.

(** Two built-ins of Python are taken as they are:
    [float_repr x] is [repr(x)] of a float (the shortest decimal text
    that reads back as [x]), and [str_repr s] is [repr(s)] of a string
    (quoted, with escapes). Every statement of this section holds
    whatever the two functions are. *)
Variable float_repr : float -> string.
Variable str_repr : string -> string.

(** [repr(v)]. *)
Fixpoint py_repr (v : value) : string :=
  match v with
  | VNone => "None"
  | VBool b => if b then "True" else "False"
  | VInt z => dec_Z z
  | VFloat f => float_repr f
  | VStr s => str_repr s
  | VList l => "[" ++ join ", " (map py_repr l) ++ "]"
  | VDict d =>
      "{" ++ join ", "
               (map (fun kv => str_repr (fst kv) ++ ": " ++ py_repr (snd kv)) d)
          ++ "}"
  end.

(** [str(v)], which is also what an f-string field [{v}] inserts. *)
Definition py_str (v : value) : string :=
  match v with
  | VStr s => s
  | _ => py_repr v
  end.

(** [escape_sql_string]: the tests are made in the order of the source,
    so the [isinstance(value, bool)] test comes after the
    [isinstance(value, (int, float))] one. *)
Definition escape_sql_string (v : value) : string :=
  match v with
  | VNone => "NULL"
  | _ =>
      if isinstance_int_float v then py_str v
      else if isinstance_bool v then (if truthy v then "1" else "0")
      else
        replace_char carriage_return " "
          (replace_char newline " "
             (replace_char dquote (String dquote (str1 dquote))
                (replace_char "'"%char "''" (py_str v))))
  end.

(* ================================================================= *)
(** ** The anomaly extractor: [process_behavioral_anomalies] *)

Definition anomaly_container_keys : list string :=
  ["customer_anomalies"; "behavioral_anomalies"; "anomalies"].

Definition anomaly_marker_fields : list string :=
  ["customer_id"; "customerid"; "severity"; "changes"].

(** [for key in possible_keys: if key in data and isinstance(data[key],
    list): records = data[key]; break], from an empty [records]. *)
Fixpoint first_list_under (d : record) (possible_keys : list string) : list value :=
  match possible_keys with
  | [] => []
  | key :: rest =>
      match lookup d key with
      | Some (VList l) => l
      | _ => first_list_under d rest
      end
  end.

(** The test of the heuristic scan: a non-empty list whose first element
    is a dict with one of the marker fields. *)
Definition looks_like_anomalies (v : value) : bool :=
  match v with
  | VList (VDict first :: _) => existsb (has_key first) anomaly_marker_fields
  | _ => false
  end.

(** [for key, value in data.items(): if ...: records = value; break]. *)
Fixpoint scan_for_records (entries : record) : list value :=
  match entries with
  | [] => []
  | (_, v) :: rest =>
      if looks_like_anomalies v
      then match v with VList l => l | _ => [] end
      else scan_for_records rest
  end.

Definition locate_anomaly_records (data : value) : list value :=
  match data with
  | VDict d =>
      match first_list_under d anomaly_container_keys with
      | [] => scan_for_records d
      | found => found
      end
  | VList l => l
  | _ => []
  end.

(** The six fields of one anomaly row, before they are turned to text. *)
Record anomaly : Type := mk_anomaly {
  customer_id : value;
  customer_segment : value;
  value_tier : value;
  severity : value;
  flags : value;
  types : value
}.

Definition extract_anomaly (r : record) (record_count : nat) : anomaly :=
  {| customer_id :=
       py_or (get r "customer_id")
         (py_or (get r "customerid") (VStr ("UNKNOWN_" ++ dec_nat record_count)));
     customer_segment :=
       get_default r "customer_segment" (get_default r "customersegment" (VStr "Unknown"));
     value_tier :=
       get_default r "value_tier" (get_default r "valuetier" (VStr "Unknown"));
     severity :=
       py_or (get r "severity")
         (py_or (get r "anomaly_severity") (get_default r "riskscore" (VStr "Normal")));
     flags :=
       py_or (get r "flags")
         (py_or (get r "anomaly_flags") (get_default r "riskscore" (VInt 0)));
     types :=
       let t := py_or (get r "types")
                  (py_or (get r "anomaly_types") (get_default r "changes" (VStr EmptyString))) in
       match t with
       | VList l => VStr (join "," (map py_str l))
       | _ => t
       end |}.

Definition anomaly_row (a : anomaly) : string :=
  "('" ++ escape_sql_string (customer_id a) ++ "', '"
       ++ escape_sql_string (customer_segment a) ++ "', '"
       ++ escape_sql_string (value_tier a) ++ "', '"
       ++ escape_sql_string (severity a) ++ "', "
       ++ py_str (flags a) ++ ", '"
       ++ escape_sql_string (types a) ++ "')".

(** [for record in anomaly_records: if isinstance(record, dict): ...;
    record_count += 1]. *)
Fixpoint extract_anomalies (records : list value) (record_count : nat) : list anomaly :=
  match records with
  | [] => []
  | VDict r :: rest =>
      extract_anomaly r record_count :: extract_anomalies rest (S record_count)
  | _ :: rest => extract_anomalies rest record_count
  end.

Definition process_behavioral_anomalies (data : value) : M unit :=
  if negb (truthy data) then ret tt
  else
    append anomalies_banner ;;
    let anomaly_records := locate_anomaly_records data in
    match anomaly_records with
    | [] => ret tt
    | _ =>
        let values := map anomaly_row (extract_anomalies anomaly_records 0) in
        emit_batched anomalies_insert values
    end.

(* ================================================================= *)
(** ** The customer-baseline extractor: [process_customer_baselines] *)

Definition baseline_container_keys : list string :=
  ["customer_intelligence_records"; "customer_baselines"; "customers";
   "customerintelligencerecords"].

Definition locate_baseline_records (data : value) : list value :=
  match data with
  | VDict d => first_list_under d baseline_container_keys
  | _ => []
  end.

Definition baseline_row (r : record) (i : nat) : string :=
  let customer_id :=
    py_or (get r "customer_id")
      (py_or (get r "customerid") (VStr ("CUST_" ++ pad6 i))) in
  let health_score :=
    get_default r "customer_health_score" (get_default r "health_score" (VFloat 50)) in
  let frequency_score :=
    get_default r "frequency_count" (get_default r "frequency_score" (VInt 0)) in
  let monetary_value :=
    get_default r "monetary_total" (get_default r "monetary_value" (VFloat 0)) in
  let recency_days := get_default r "recency_days" (VInt 0) in
  let value_tier := get_default r "value_tier" (VStr "Medium") in
  let activity_segment :=
    get_default r "activity_segment" (get_default r "activitysegment" (VStr "Unknown")) in
  let clv_score := get_default r "clv_score" (get_default r "clvscore" (VFloat 0)) in
  let customer_health_score :=
    get_default r "customer_health_score"
      (get_default r "customerhealthscore" health_score) in
  let customer_segment :=
    get_default r "customer_segment" (get_default r "customersegment" (VStr "Standard")) in
  "('" ++ escape_sql_string customer_id ++ "', "
       ++ py_str health_score ++ ", "
       ++ py_str frequency_score ++ ", "
       ++ py_str monetary_value ++ ", "
       ++ py_str recency_days ++ ", '"
       ++ escape_sql_string value_tier ++ "', '"
       ++ escape_sql_string activity_segment ++ "', "
       ++ py_str clv_score ++ ", "
       ++ py_str customer_health_score ++ ", '"
       ++ escape_sql_string customer_segment ++ "')".

(** [for i, record in enumerate(baseline_records): if isinstance(record,
    dict): ...]: the index counts every element. *)
Fixpoint baseline_rows (records : list value) (i : nat) : list string :=
  match records with
  | [] => []
  | VDict r :: rest => baseline_row r i :: baseline_rows rest (S i)
  | _ :: rest => baseline_rows rest (S i)
  end.

Definition process_customer_baselines (data : value) : M unit :=
  if negb (truthy data) then ret tt
  else
    append customer_baselines_banner ;;
    let baseline_records := locate_baseline_records data in
    match baseline_records with
    | [] => ret tt
    | _ =>
        let values := baseline_rows baseline_records 0 in
        emit_batched customer_baselines_insert values
    end.

(* ================================================================= *)
(** ** The segment-performance extractor: [process_segment_performance] *)

Definition segment_container_keys : list string :=
  ["channel_performance"; "segment_baselines"; "segmentbaselines"].

Definition locate_segment_records (data : value) : list value :=
  match data with
  | VDict d => first_list_under d segment_container_keys
  | _ => []
  end.

Definition segment_row (r : record) : string :=
  let segment := get_default r "customer_segment" (get_default r "segment" (VStr "Unknown")) in
  let channel := get_default r "sales_channel" (get_default r "channel" (VStr "Unknown")) in
  let region := get_default r "region" (VStr "Unknown") in
  let total_revenue := get_default r "total_amount" (get_default r "total_revenue" (VFloat 0)) in
  let transaction_count := get_default r "transaction_count" (get_default r "count" (VInt 0)) in
  let avg_transaction_value := get_default r "avg_transaction_value" (VFloat 0) in
  let market_share_pct := get_default r "market_share_pct" (VFloat 0) in
  "('" ++ escape_sql_string segment ++ "', '"
       ++ escape_sql_string channel ++ "', '"
       ++ escape_sql_string region ++ "', "
       ++ py_str total_revenue ++ ", "
       ++ py_str transaction_count ++ ", "
       ++ py_str avg_transaction_value ++ ", "
       ++ py_str market_share_pct ++ ")".

Fixpoint segment_rows (records : list value) : list string :=
  match records with
  | [] => []
  | VDict r :: rest => segment_row r :: segment_rows rest
  | _ :: rest => segment_rows rest
  end.

Definition process_segment_performance (data : value) : M unit :=
  if negb (truthy data) then ret tt
  else
    append segment_performance_banner ;;
    let segment_data := locate_segment_records data in
    match segment_data with
    | [] => ret tt
    | _ =>
        let values := segment_rows segment_data in
        emit_single segment_performance_insert values
    end.

(* ================================================================= *)
(** ** The generic metric-tree extractor: [process_ml_baselines] *)

(** [baseline_value], [threshold_upper] and [threshold_lower] of one
    metric. In the dict case the default of each [get] is evaluated
    before the call, as Python does, whether or not the key is there. *)
Definition metric_fields (metric_data : value) : outcome (value * value * value) :=
  match metric_data with
  | VDict md =>
      let baseline_value := get_default md "baseline" (get_default md "mean" (VFloat 0)) in
      obind (if truthy baseline_value then py_mul_float baseline_value 1.2
             else Returned (VInt 0)) (fun upper_default =>
      let threshold_upper :=
        get_default md "upper_threshold" (get_default md "max" upper_default) in
      obind (if truthy baseline_value then py_mul_float baseline_value 0.8
             else Returned (VInt 0)) (fun lower_default =>
      let threshold_lower :=
        get_default md "lower_threshold" (get_default md "min" lower_default) in
      Returned (baseline_value, threshold_upper, threshold_lower)))
  | _ =>
      obind (if isinstance_int_float metric_data then py_float metric_data
             else Returned 0%float) (fun baseline_value =>
      Returned (VFloat baseline_value,
                VFloat (PrimFloat.mul baseline_value 1.2),
                VFloat (PrimFloat.mul baseline_value 0.8)))
  end.

Definition ml_row (source_name dimension : string) (metric : string * value)
  : outcome (list string) :=
  obind (metric_fields (snd metric)) (fun fields =>
  let '(baseline_value, threshold_upper, threshold_lower) := fields in
  let data_source := source_name ++ ".json" in
  Returned
    ["('" ++ escape_sql_string (VStr dimension) ++ "', '"
          ++ escape_sql_string (VStr (fst metric)) ++ "', "
          ++ py_str baseline_value ++ ", "
          ++ py_str threshold_upper ++ ", "
          ++ py_str threshold_lower ++ ", '"
          ++ escape_sql_string (VStr data_source) ++ "')"]).

(** The two nested loops over [data.items()] and [metrics.items()]. *)
Definition ml_rows (source_name : string) (data : value) : outcome (list string) :=
  match data with
  | VDict d =>
      collect (fun dm : string * value =>
                 match snd dm with
                 | VDict metrics => collect (ml_row source_name (fst dm)) metrics
                 | _ => Returned []
                 end) d
  | _ => Returned []
  end.

Definition process_ml_baselines (data : value) (source_name : string) : M unit :=
  if negb (truthy data) then ret tt
  else
    written <- header_written ;;
    (if written then ret tt
     else append ml_baselines_banner ;; set_header_written) ;;
    values <- lift (ml_rows source_name data) ;;
    emit_single ml_baselines_insert values.

(* ================================================================= *)
(** ** The orchestrator: [convert_all] *)

(** The keys of [file_patterns], in the order the dict lists them. *)
Inductive file_type : Type :=
  | behavioral_anomalies
  | customer_comprehensive
  | customer_rfm
  | customer_segments
  | customer_value_tiers
  | category_baselines
  | product_anomalies
  | ml_baselines
  | executive_kpi_dashboard
  | executive_insights_summary
  | ml_baseline_consolidated.

Definition file_patterns : list file_type :=
  [behavioral_anomalies; customer_comprehensive; customer_rfm; customer_segments;
   customer_value_tiers; category_baselines; product_anomalies; ml_baselines;
   executive_kpi_dashboard; executive_insights_summary; ml_baseline_consolidated].

(** What the run finds for one catalogued file: nothing; a file that
    [load_json_safe] cannot read or parse (it returns [None]); or a file
    that parses to a document. *)
Inductive file_status : Type :=
  | Missing
  | Unreadable
  | Parsed (data : value).

(** The surroundings of one run: the input folder, whether writing the
    output file fails, and the clock as [generate_header] formats it. *)
Record environment : Type := mk_environment {
  file_at : file_type -> file_status;
  write_fails : bool;
  today : string;
  now : string
}.

Definition file_exists (env : environment) (k : file_type) : bool :=
  match file_at env k with Missing => false | _ => true end.

(** [detect_json_files]: the catalogued files that exist, in catalogue
    order. *)
Definition detect_json_files (env : environment) : list file_type :=
  filter (file_exists env) file_patterns.

(** [load_json_safe]: the document, or [None] after any error. *)
Definition load_json_safe (env : environment) (k : file_type) : value :=
  match file_at env k with
  | Parsed data => data
  | _ => VNone
  end.

(** The [processors] table: two catalogued files have no entry. *)
Definition processors (k : file_type) : option (value -> M unit) :=
  match k with
  | behavioral_anomalies => Some process_behavioral_anomalies
  | customer_comprehensive => Some process_customer_baselines
  | customer_segments => Some process_segment_performance
  | ml_baselines => Some (fun data => process_ml_baselines data "ml_baselines")
  | category_baselines => Some (fun data => process_ml_baselines data "category_baselines")
  | product_anomalies => Some (fun data => process_ml_baselines data "product_anomalies")
  | executive_kpi_dashboard =>
      Some (fun data => process_ml_baselines data "executive_kpi_dashboard")
  | executive_insights_summary =>
      Some (fun data => process_ml_baselines data "executive_insights_summary")
  | ml_baseline_consolidated =>
      Some (fun data => process_ml_baselines data "ml_baseline_consolidated")
  | customer_rfm | customer_value_tiers => None
  end.

(** The body of the loop over [json_files.items()]. *)
Definition process_file (env : environment) (k : file_type) : M unit :=
  let data := load_json_safe env k in
  if truthy data then
    match processors k with
    | Some process => process data
    | None => ret tt
    end
  else ret tt.

(** The [try] block that writes the output file. [output_file] holds
    the content of a write that succeeded. A write that fails returns
    [False] and records nothing here: the case covered is [open]
    failing, which leaves the file as it was; what the disk holds when
    [write] or [stat] fails after [open] has emptied the file is not
    modelled. *)
Definition write_output (env : environment) (sql_content : list string) : M bool :=
  fun st =>
    if write_fails env then Returned (false, st)
    else
      Returned (true, {| sql_sections := sql_sections st;
                         section4_header_written := section4_header_written st;
                         output_file := Some (join (str1 newline) sql_content) |}).

Definition get_sql_sections : M (list string) :=
  fun st => Returned (sql_sections st, st).

Definition convert_all (env : environment) : M bool :=
  let json_files := detect_json_files env in
  match json_files with
  | [] => ret false
  | _ =>
      for_each json_files (process_file env) ;;
      sections <- get_sql_sections ;;
      let sql_content :=
        ([generate_header (today env) (now env)] ++ sections ++ [generate_footer])%list in
      write_output env sql_content
  end.

(* ================================================================= *)
(** ** What a method leaves in [sql_sections] *)

(** The definitions from here to the end of this part are not in the
    source: they name, as plain lists, the sections a method appends and
    the classes of documents the statements speak of. The lemmas
    [*_run] prove that the methods append exactly these sections. *)

Definition extend (st : state) (added : list string) : state :=
  {| sql_sections := sql_sections st ++ added;
     section4_header_written := section4_header_written st;
     output_file := output_file st |}.

(** One statement: its head, then its rows joined and closed. *)
Definition statement (insert_into : string) (rows : list string) : list string :=
  [insert_into; join (String "," (str1 newline)) rows ++ ";"].

(** The statements of the groups, then the empty section; nothing when
    there is no group. *)
Definition emitted (insert_into : string) (groups : list (list string)) : list string :=
  match groups with
  | [] => []
  | _ => (List.concat (map (statement insert_into) groups) ++ [EmptyString])%list
  end.

(** All the rows as one group. *)
Definition whole (values : list string) : list (list string) :=
  match values with
  | [] => []
  | _ => [values]
  end.

(** How many sections are the head [insert_into]. *)
Definition count_statements (insert_into : string) (sections : list string) : nat :=
  count_occ string_dec sections insert_into.

(** The group that starts at index [k * step]. *)
Definition chunk_at {A} (step : nat) (l : list A) (k : nat) : list A :=
  firstn step (skipn (k * step) l).

Definition anomaly_values (data : value) : list string :=
  map anomaly_row (extract_anomalies (locate_anomaly_records data) 0).

Definition baseline_values (data : value) : list string :=
  baseline_rows (locate_baseline_records data) 0.

Definition segment_values (data : value) : list string :=
  segment_rows (locate_segment_records data).

(** What each of the first three methods appends for a truthy
    document: its banner, then the statements of its rows. *)
Definition anomalies_sections (data : value) : list string :=
  anomalies_banner :: emitted anomalies_insert (batches (anomaly_values data)).

Definition customer_baselines_sections (data : value) : list string :=
  customer_baselines_banner
    :: emitted customer_baselines_insert (batches (baseline_values data)).

Definition segment_performance_sections (data : value) : list string :=
  segment_performance_banner
    :: emitted segment_performance_insert (whole (segment_values data)).

(** What [process_ml_baselines] appends for the rows [values], given
    whether the banner of section 4 is already written. *)
Definition ml_baselines_sections (written : bool) (values : list string) : list string :=
  ((if written then [] else [ml_baselines_banner])
     ++ emitted ml_baselines_insert (whole values))%list.

(* ================================================================= *)
(** ** What a run does, file by file *)

(** The source name under which a catalogued file goes to
    [process_ml_baselines], when it does. *)
Definition ml_source (k : file_type) : option string :=
  match k with
  | ml_baselines => Some "ml_baselines"
  | category_baselines => Some "category_baselines"
  | product_anomalies => Some "product_anomalies"
  | executive_kpi_dashboard => Some "executive_kpi_dashboard"
  | executive_insights_summary => Some "executive_insights_summary"
  | ml_baseline_consolidated => Some "ml_baseline_consolidated"
  | _ => None
  end.

(** The exception the extractor of file [k] raises on the document the
    run finds there, if it raises one. *)
Definition extractor_error (env : environment) (k : file_type) : option exn :=
  let data := load_json_safe env k in
  match ml_source k with
  | Some source_name =>
      if truthy data then
        match ml_rows source_name data with
        | Raised e => Some e
        | Returned _ => None
        end
      else None
  | None => None
  end.

(** No extractor raises on a file of the run. *)
Definition extractors_return (env : environment) : bool :=
  forallb (fun k => match extractor_error env k with
                    | None => true
                    | Some _ => false
                    end)
          (detect_json_files env).

(** The sections the step for file [k] appends and the banner flag it
    leaves, from the flag it finds. *)
Definition file_effect (env : environment) (k : file_type) (written : bool)
  : outcome (list string * bool) :=
  let data := load_json_safe env k in
  if truthy data then
    match k with
    | behavioral_anomalies => Returned (anomalies_sections data, written)
    | customer_comprehensive => Returned (customer_baselines_sections data, written)
    | customer_segments => Returned (segment_performance_sections data, written)
    | _ =>
        match ml_source k with
        | Some source_name =>
            obind (ml_rows source_name data) (fun values =>
            Returned (ml_baselines_sections written values, true))
        | None => Returned ([], written)
        end
    end
  else Returned ([], written).

Fixpoint files_effect (env : environment) (ks : list file_type) (written : bool)
  : outcome (list string * bool) :=
  match ks with
  | [] => Returned ([], written)
  | k :: rest =>
      obind (file_effect env k written) (fun r1 =>
      obind (files_effect env rest (snd r1)) (fun r2 =>
      Returned ((fst r1 ++ fst r2)%list, snd r2)))
  end.

(** The state after a step that appended [fst r] and left the banner
    flag [snd r]. *)
Definition leave (st : state) (r : list string * bool) : state :=
  {| sql_sections := sql_sections st ++ fst r;
     section4_header_written := snd r;
     output_file := output_file st |}.

(** The lines of the output document: header, sections, footer. *)
Definition sql_content (env : environment) (sections : list string) : list string :=
  ([generate_header (today env) (now env)] ++ sections ++ [generate_footer])%list.

Definition with_output (st : state) (text : string) : state :=
  {| sql_sections := sql_sections st;
     section4_header_written := section4_header_written st;
     output_file := Some text |}.

(* ================================================================= *)
(** ** The field-fallback protocol and the shapes of documents *)

(** The field-fallback protocol in its two forms: the first candidate
    key whose value is truthy, and the first candidate key that is
    present. *)
Fixpoint first_truthy (r : record) (keys : list string) : option value :=
  match keys with
  | [] => None
  | key :: rest =>
      if truthy (get r key) then Some (get r key) else first_truthy r rest
  end.

Fixpoint first_present (r : record) (keys : list string) : option value :=
  match keys with
  | [] => None
  | key :: rest =>
      match lookup r key with
      | Some v => Some v
      | None => first_present r rest
      end
  end.

Definition or_default (found : option value) (default : value) : value :=
  match found with
  | Some v => v
  | None => default
  end.

(** A list of types is joined with commas; anything else is kept. *)
Definition joined_types (t : value) : value :=
  match t with
  | VList l => VStr (join "," (map py_str l))
  | _ => t
  end.

(** Whether one of [keys] maps to a list in [d]. *)
Definition named_list_present (d : record) (keys : list string) : bool :=
  existsb (fun key => match lookup d key with
                      | Some (VList _) => true
                      | _ => false
                      end) keys.

(** Documents of no recognized structure: for the anomaly extractor, a
    scalar, or a dict in which no container key maps to a list and no
    value passes the scan; for the customer-baseline and
    segment-performance extractors, anything but a dict in which a
    container key maps to a list; for the metric-tree extractor,
    anything but a dict with a dict among its values. *)
Definition unrecognized_anomalies (data : value) : bool :=
  match data with
  | VDict d =>
      negb (named_list_present d anomaly_container_keys)
      && negb (existsb (fun kv => looks_like_anomalies (snd kv)) d)
  | VList _ => false
  | _ => true
  end.

Definition unrecognized_records (keys : list string) (data : value) : bool :=
  match data with
  | VDict d => negb (named_list_present d keys)
  | _ => true
  end.

Definition unrecognized_metrics (data : value) : bool :=
  match data with
  | VDict d => forallb (fun kv => negb (is_dict (snd kv))) d
  | _ => true
  end.

(* ================================================================= *)
(** ** Inputs of the examples *)

Definition file_type_eq_dec (a b : file_type) : {a = b} + {a <> b}.
Proof. decide equality. Defined.

(** The environment with the status of one file changed. *)
Definition with_file (env : environment) (k : file_type) (s : file_status)
  : environment :=
  {| file_at := fun k' => if file_type_eq_dec k' k then s else file_at env k';
     write_fails := write_fails env;
     today := today env;
     now := now env |}.

(** An input folder with no catalogued file, and a disk that accepts the
    output. *)
Definition empty_folder : environment :=
  {| file_at := fun _ => Missing;
     write_fails := false;
     today := "2025-09-06";
     now := "2025-09-06 12:00:00" |}.

Definition segments_1001 : value :=
  VDict [("segment_baselines", VList (repeat (VDict [("region", VStr "North")]) 1001))].

Definition anomalies_of (n : nat) : value :=
  VList (repeat (VDict [("customer_id", VStr "C1")]) n).

Definition one_anomaly_run : environment :=
  with_file empty_folder behavioral_anomalies (Parsed (anomalies_of 1)).

Definition baseline_100_doc : value :=
  VDict [("sales", VDict [("revenue", VDict [("baseline", VInt 100)])])].

Definition string_baseline_doc : value :=
  VDict [("sales", VDict [("revenue", VDict [("baseline", VStr "high")])])].

Definition string_baseline_run : environment :=
  with_file empty_folder ml_baselines (Parsed string_baseline_doc).

Definition huge_count_doc : value :=
  VDict [("electronics", VDict [("units_sold", VInt (10 ^ 400))])].

Definition huge_count_run : environment :=
  with_file empty_folder category_baselines (Parsed huge_count_doc).

Definition falsy_fields_record : record :=
  [("customer_id", VStr EmptyString); ("severity", VInt 0);
   ("flags", VBool false); ("riskscore", VInt 7)].

Definition alternate_keys_record : record :=
  [("customerid", VStr "C1"); ("riskscore", VInt 7)].

Definition foo_entries : record :=
  [("foo", VList [VDict [("customer_id", VStr "C2"); ("severity", VStr "High")]])].

Definition foo_doc : value := VDict foo_entries.

(** What the heuristic scan is to look for, as the specification words
    it: a list whose first element is a mapping that contains one of the
    keys [customer_id], [customerid], [severity], [changes]. *)
Definition sequence_of_anomalies (v : value) : Prop :=
  exists first rest field,
    v = VList (VDict first :: rest)
    /\ In field ["customer_id"; "customerid"; "severity"; "changes"]
    /\ lookup first field <> None.

(** A document with no named key and five values: a string, a list of
    mappings without any of the four keys, an empty list, and two lists
    that the scan accepts. *)
Definition scan_order_entries : record :=
  [("generated", VStr "2024-01-01");
   ("notes", VList [VDict [("text", VStr "n/a")]]);
   ("empty", VList []);
   ("foo", VList [VDict [("changes", VInt 2)]; VInt 1]);
   ("bar", VList [VDict [("customer_id", VStr "C9")]])].

(** Metrics without threshold keys: a baseline beyond the floats, a
    baseline that is a word, and a [mean] without a [baseline]. *)
Definition huge_baseline_metric : record := [("baseline", VInt (10 ^ 400))].

Definition word_baseline_metric : record := [("baseline", VStr "high")].

Definition mean_only_metric : record := [("mean", VInt 50)].

Definition unreadable_anomalies_run : environment :=
  with_file empty_folder behavioral_anomalies Unreadable.

Definition empty_segments_run : environment :=
  with_file empty_folder customer_segments (Parsed (VDict [])).

Definition scalar_anomalies_run : environment :=
  with_file empty_folder behavioral_anomalies (Parsed (VInt 5)).

(* ================================================================= *)
(** ** Notions for the further properties *)

(** Every occurrence of the quote [q] in [s] is one of a pair. *)
Fixpoint quotes_paired (q : ascii) (s : string) : bool :=
  match s with
  | EmptyString => true
  | String a rest =>
      if Ascii.eqb a q then
        match rest with
        | String b rest' => Ascii.eqb b q && quotes_paired q rest'
        | EmptyString => false
        end
      else quotes_paired q rest
  end.

(** The dicts among the elements of a list, and the same with the
    position each has in the list (counted from [i]). *)
Fixpoint dict_records (records : list value) : list record :=
  match records with
  | [] => []
  | VDict r :: rest => r :: dict_records rest
  | _ :: rest => dict_records rest
  end.

Fixpoint indexed_dict_records (records : list value) (i : nat) : list (nat * record) :=
  match records with
  | [] => []
  | VDict r :: rest => (i, r) :: indexed_dict_records rest (S i)
  | _ :: rest => indexed_dict_records rest (S i)
  end.

(** The metrics of a metric tree (the entries of its values that are
    dicts), in document order. *)
Fixpoint metrics_of (entries : record) : list (string * value) :=
  match entries with
  | [] => []
  | (_, VDict metrics) :: rest => (metrics ++ metrics_of rest)%list
  | _ :: rest => metrics_of rest
  end.

Definition returns {A} (x : outcome A) : bool :=
  match x with
  | Returned _ => true
  | Raised _ => false
  end.

(** The [baseline_value] of a metric that is a dict. *)
Definition baseline_of (md : record) : value :=
  get_default md "baseline" (get_default md "mean" (VFloat 0)).

(** Whether a catalogued file has an entry in [processors]. *)
Definition has_processor (k : file_type) : bool :=
  match processors k with
  | Some _ => true
  | None => false
  end.

(** The place of a file in the catalogue. *)
Definition catalogue_index (k : file_type) : nat :=
  match k with
  | behavioral_anomalies => 0
  | customer_comprehensive => 1
  | customer_rfm => 2
  | customer_segments => 3
  | customer_value_tiers => 4
  | category_baselines => 5
  | product_anomalies => 6
  | ml_baselines => 7
  | executive_kpi_dashboard => 8
  | executive_insights_summary => 9
  | ml_baseline_consolidated => 10
  end.

(** The files that go to [process_ml_baselines], in catalogue order. *)
Definition metric_files : list file_type :=
  [category_baselines; product_anomalies; ml_baselines; executive_kpi_dashboard;
   executive_insights_summary; ml_baseline_consolidated].

Definition is_metric_file (k : file_type) : bool :=
  match ml_source k with
  | Some _ => true
  | None => false
  end.

(** The sections of a document that is processed only when truthy. *)
Definition sections_if (sections : value -> list string) (data : value) : list string :=
  if truthy data then sections data else [].

(** A truthy document is found for one of the metric files. *)
Definition metric_document_present (env : environment) : bool :=
  existsb (fun k => truthy (load_json_safe env k)) metric_files.

(** No file with a processor holds a truthy document. *)
Definition nothing_to_extract (env : environment) : bool :=
  forallb (fun k => negb (has_processor k && truthy (load_json_safe env k)))
          file_patterns.

Definition quoted_name_record : value := VStr "O'Brien
& Sons".

Definition backslash_name : string := "C:\data\".

Definition shadowed_customers_entries : record :=
  [("customer_baselines", VList []);
   ("customers", VList [VDict [("customer_id", VStr "C1")]])].

Definition mixed_records : list value :=
  [VStr "note"; VDict []; VInt 3; VDict []].

Definition explicit_thresholds_metric : record :=
  [("baseline", VStr "high"); ("upper_threshold", VInt 10); ("lower_threshold", VInt 1)].


Definition two_ml_files_run : environment :=
  with_file (with_file empty_folder ml_baselines (Parsed baseline_100_doc))
    category_baselines (Parsed baseline_100_doc).

Definition rfm_only_run : environment :=
  with_file empty_folder customer_rfm (Parsed baseline_100_doc).

(* ================================================================= *)
(** ** Properties of the batch emitter *)

Lemma extend_nil (st : state) : extend st [] = st.
Proof. destruct st; unfold extend; simpl. now rewrite app_nil_r. Qed.

Lemma extend_extend (st : state) (a b : list string) :
  extend (extend st a) b = extend st (a ++ b).
Proof. unfold extend; simpl. now rewrite app_assoc. Qed.

Lemma append_run (s : string) (st : state) :
  append s st = Returned (tt, extend st [s]).
Proof. reflexivity. Qed.

Lemma insert_statement_run (insert_into : string) (rows : list string) (st : state) :
  insert_statement insert_into rows st
  = Returned (tt, extend st (statement insert_into rows)).
Proof.
  unfold insert_statement, bind. rewrite !append_run, extend_extend. reflexivity.
Qed.

Lemma for_each_statements (insert_into : string) (groups : list (list string)) :
  forall st,
    for_each groups (insert_statement insert_into) st
    = Returned (tt, extend st (List.concat (map (statement insert_into) groups))).
Proof.
  induction groups as [|g gs IH]; intro st.
  - simpl. unfold ret. now rewrite extend_nil.
  - cbn [for_each map List.concat]. unfold bind at 1.
    rewrite insert_statement_run, IH, extend_extend. reflexivity.
Qed.

(** The slice the loop takes at [i] is the next [batch_size] values. *)
Lemma slice_batch {A} (l : list A) (i n : nat) :
  slice l i (i + n) = firstn n (skipn i l).
Proof. unfold slice. f_equal. lia. Qed.

Section Chunks.

Variable A : Type.
Variable step : nat.
Hypothesis step_pos : 0 < step.

Lemma chunk_shift (l : list A) (k : nat) :
  chunk_at step l (S k) = chunk_at step (skipn step l) k.
Proof.
  unfold chunk_at. rewrite skipn_skipn. do 2 f_equal. simpl. lia.
Qed.

Lemma concat_chunks (c : nat) :
  forall l : list A,
    List.length l <= c * step ->
    List.concat (map (chunk_at step l) (seq 0 c)) = l.
Proof.
  induction c as [|c IH]; intros l Hlen.
  - destruct l; [reflexivity | simpl in Hlen; lia].
  - cbn [seq map List.concat]. rewrite <- seq_shift, map_map.
    rewrite (map_ext (fun k => chunk_at step l (S k))
               (chunk_at step (skipn step l)) (chunk_shift l)), IH.
    + unfold chunk_at. simpl. apply firstn_skipn.
    + rewrite length_skipn. simpl in Hlen. lia.
Qed.

Lemma chunk_length (l : list A) (k : nat) :
  List.length (chunk_at step l k) = Nat.min step (List.length l - k * step).
Proof. unfold chunk_at. now rewrite length_firstn, length_skipn. Qed.

Lemma ceil_bounds (n : nat) :
  n <= ((n + step - 1) / step) * step /\
  (n = 0 \/ ((n + step - 1) / step - 1) * step < n).
Proof.
  pose proof (Nat.div_mod_eq (n + step - 1) step) as E.
  pose proof (Nat.mod_upper_bound (n + step - 1) step ltac:(lia)) as B.
  split; [nia|]. destruct n; [now left|right]. nia.
Qed.

End Chunks.

(** The indices of the loop are the multiples of [step] below [stop],
    and there are [stop / step], rounded up, of them. *)
Lemma range_from_multiples (step : nat) :
  0 < step ->
  forall fuel start stop,
    stop - start <= fuel ->
    range_from fuel start stop step
    = map (fun k => start + k * step) (seq 0 ((stop - start + step - 1) / step)).
Proof.
  intros Hstep fuel. induction fuel as [|fuel IH]; intros start stop Hfuel.
  - cbn [range_from]. replace (stop - start) with 0 by lia.
    rewrite Nat.div_small by lia. reflexivity.
  - cbn [range_from]. destruct (Nat.ltb_spec start stop) as [Hlt|Hge].
    + rewrite IH by lia.
      assert (E : (stop - start + step - 1) / step
                  = S ((stop - (start + step) + step - 1) / step)).
      { destruct (Nat.le_gt_cases step (stop - start)) as [Hbig|Hsmall].
        - replace (stop - start + step - 1)
            with ((stop - (start + step) + step - 1) + 1 * step) by lia.
          rewrite Nat.div_add by lia. lia.
        - replace (stop - (start + step)) with 0 by lia.
          rewrite (Nat.div_small (0 + step - 1)) by lia.
          replace (stop - start + step - 1)
            with ((stop - start - 1) + 1 * step) by lia.
          rewrite Nat.div_add by lia. rewrite Nat.div_small by lia. reflexivity. }
      rewrite E. cbn [seq map]. rewrite <- seq_shift, map_map.
      f_equal; [lia|]. apply map_ext. intro k. lia.
    + replace (stop - start) with 0 by lia.
      rewrite Nat.div_small by lia. reflexivity.
Qed.

Lemma range_step_multiples (stop step : nat) :
  0 < step ->
  range_step stop step = map (fun k => k * step) (seq 0 ((stop + step - 1) / step)).
Proof.
  intro Hstep. unfold range_step.
  rewrite (range_from_multiples step Hstep stop 0 stop) by lia.
  rewrite Nat.sub_0_r. reflexivity.
Qed.

Lemma batch_size_pos : 0 < batch_size.
Proof. unfold batch_size. lia. Qed.

Lemma batches_chunks (values : list string) :
  batches values
  = map (chunk_at batch_size values)
        (seq 0 ((List.length values + batch_size - 1) / batch_size)).
Proof.
  unfold batches. rewrite (range_step_multiples _ _ batch_size_pos), map_map.
  apply map_ext. intro k. apply slice_batch.
Qed.

(** The batches are consecutive: put end to end they are the values. *)
Lemma concat_batches (values : list string) :
  List.concat (batches values) = values.
Proof.
  rewrite batches_chunks.
  apply concat_chunks; [apply batch_size_pos|].
  apply (ceil_bounds batch_size batch_size_pos).
Qed.

(** Every batch has at least one row and at most [batch_size]. *)
Lemma batches_bounded (values : list string) :
  Forall (fun b => 1 <= List.length b <= batch_size) (batches values).
Proof.
  rewrite batches_chunks. apply Forall_forall. intros b Hb.
  apply in_map_iff in Hb. destruct Hb as (k & <- & Hk).
  apply in_seq in Hk. rewrite chunk_length.
  pose proof batch_size_pos as P.
  destruct (ceil_bounds batch_size batch_size_pos (List.length values)) as [_ [Z|U]].
  - rewrite Z in Hk. rewrite Nat.div_small in Hk by lia. lia.
  - assert (k * batch_size < List.length values) by nia. lia.
Qed.

Lemma batches_count (values : list string) :
  List.length (batches values) = (List.length values + batch_size - 1) / batch_size.
Proof. rewrite batches_chunks, length_map, length_seq. reflexivity. Qed.

Lemma batches_nil : batches [] = [].
Proof. reflexivity. Qed.

Lemma batches_nonempty (values : list string) :
  values <> [] -> batches values <> [].
Proof.
  intros Hv Hb. apply Hv. rewrite <- (concat_batches values), Hb. reflexivity.
Qed.

(* ================================================================= *)
(** ** What the processing methods do to the state *)

Lemma emit_batched_run (insert_into : string) (values : list string) (st : state) :
  emit_batched insert_into values st
  = Returned (tt, extend st (emitted insert_into (batches values))).
Proof.
  destruct values as [|v vs].
  - cbn. now rewrite extend_nil.
  - unfold emit_batched, bind. rewrite for_each_statements, append_run, extend_extend.
    unfold emitted.
    destruct (batches (v :: vs)) eqn:E; [|reflexivity].
    exfalso. now apply (batches_nonempty (v :: vs)).
Qed.

Lemma emit_single_run (insert_into : string) (values : list string) (st : state) :
  emit_single insert_into values st
  = Returned (tt, extend st (emitted insert_into (whole values))).
Proof.
  destruct values as [|v vs].
  - cbn. now rewrite extend_nil.
  - unfold emit_single, bind.
    rewrite insert_statement_run, append_run, extend_extend. reflexivity.
Qed.

Lemma map_nil_inv {A B} (f : A -> B) (l : list A) : map f l = [] -> l = [].
Proof. destruct l; [reflexivity | discriminate]. Qed.

Lemma process_behavioral_anomalies_run (data : value) (st : state) :
  process_behavioral_anomalies data st
  = Returned (tt, if truthy data then extend st (anomalies_sections data) else st).
Proof.
  unfold process_behavioral_anomalies, anomalies_sections, anomaly_values.
  destruct (truthy data); [|reflexivity]. cbn [negb].
  unfold bind at 1. rewrite append_run.
  destruct (locate_anomaly_records data) eqn:E.
  - reflexivity.
  - rewrite emit_batched_run, extend_extend. reflexivity.
Qed.

Lemma process_customer_baselines_run (data : value) (st : state) :
  process_customer_baselines data st
  = Returned (tt, if truthy data then extend st (customer_baselines_sections data)
                  else st).
Proof.
  unfold process_customer_baselines, customer_baselines_sections, baseline_values.
  destruct (truthy data); [|reflexivity]. cbn [negb].
  unfold bind at 1. rewrite append_run.
  destruct (locate_baseline_records data) eqn:E.
  - reflexivity.
  - rewrite emit_batched_run, extend_extend. reflexivity.
Qed.

Lemma process_segment_performance_run (data : value) (st : state) :
  process_segment_performance data st
  = Returned (tt, if truthy data then extend st (segment_performance_sections data)
                  else st).
Proof.
  unfold process_segment_performance, segment_performance_sections, segment_values.
  destruct (truthy data); [|reflexivity]. cbn [negb].
  unfold bind at 1. rewrite append_run.
  destruct (locate_segment_records data) eqn:E.
  - reflexivity.
  - rewrite emit_single_run, extend_extend. reflexivity.
Qed.

Lemma process_ml_baselines_run (data : value) (source_name : string) (st : state) :
  process_ml_baselines data source_name st
  = if truthy data then
      match ml_rows source_name data with
      | Returned values =>
          Returned (tt,
            {| sql_sections :=
                 sql_sections st
                   ++ ml_baselines_sections (section4_header_written st) values;
               section4_header_written := true;
               output_file := output_file st |})
      | Raised e => Raised e
      end
    else Returned (tt, st).
Proof.
  unfold process_ml_baselines.
  destruct (truthy data); [|reflexivity]. cbn [negb].
  unfold bind, header_written, lift, ml_baselines_sections.
  destruct st as [secs written out]. cbn [section4_header_written sql_sections output_file].
  destruct written; cbn.
  - destruct (ml_rows source_name data) as [values|e]; [|reflexivity].
    rewrite emit_single_run. reflexivity.
  - destruct (ml_rows source_name data) as [values|e]; [|reflexivity].
    rewrite emit_single_run. unfold extend. cbn.
    now rewrite <- app_assoc.
Qed.

(* ================================================================= *)
(** ** What the orchestrator does to the state *)

Lemma leave_nil (st : state) : leave st ([], section4_header_written st) = st.
Proof. destruct st; unfold leave; cbn. now rewrite app_nil_r. Qed.

Lemma process_file_run (env : environment) (k : file_type) (st : state) :
  process_file env k st
  = match file_effect env k (section4_header_written st) with
    | Returned r => Returned (tt, leave st r)
    | Raised e => Raised e
    end.
Proof.
  unfold process_file, file_effect.
  destruct (truthy (load_json_safe env k)) eqn:T.
  - destruct k; cbn [processors ml_source];
      rewrite ?process_behavioral_anomalies_run, ?process_customer_baselines_run,
        ?process_segment_performance_run, ?process_ml_baselines_run, ?T;
      try reflexivity;
      try (unfold ret; now rewrite leave_nil);
      destruct (ml_rows _ _); reflexivity.
  - unfold ret. now rewrite leave_nil.
Qed.

Lemma for_each_files_run (env : environment) (ks : list file_type) :
  forall st,
    for_each ks (process_file env) st
    = match files_effect env ks (section4_header_written st) with
      | Returned r => Returned (tt, leave st r)
      | Raised e => Raised e
      end.
Proof.
  induction ks as [|k rest IH]; intro st.
  - cbn. unfold ret. now rewrite leave_nil.
  - cbn [for_each files_effect]. unfold bind. rewrite process_file_run.
    destruct (file_effect env k (section4_header_written st)) as [r1|e]; [|reflexivity].
    cbn [obind]. rewrite IH. cbn [leave section4_header_written].
    destruct (files_effect env rest (snd r1)) as [r2|e]; [|reflexivity].
    cbn. unfold leave. cbn. now rewrite app_assoc.
Qed.

Lemma convert_all_run (env : environment) (st : state) :
  convert_all env st
  = match detect_json_files env with
    | [] => Returned (false, st)
    | ks =>
        match files_effect env ks (section4_header_written st) with
        | Raised e => Raised e
        | Returned r =>
            let st1 := leave st r in
            if write_fails env then Returned (false, st1)
            else Returned (true,
                           with_output st1
                             (join (str1 newline) (sql_content env (sql_sections st1))))
        end
    end.
Proof.
  unfold convert_all.
  destruct (detect_json_files env) as [|k ks] eqn:D; [reflexivity|].
  unfold bind. rewrite for_each_files_run.
  destruct (files_effect env (k :: ks) (section4_header_written st)) as [r|e];
    [|reflexivity].
  reflexivity.
Qed.

Lemma file_effect_error (env : environment) (k : file_type) (written : bool) :
  match file_effect env k written with
  | Returned _ => extractor_error env k = None
  | Raised e => extractor_error env k = Some e
  end.
Proof.
  unfold file_effect, extractor_error.
  destruct (truthy (load_json_safe env k)); destruct k; cbn [ml_source];
    try reflexivity; destruct (ml_rows _ _); reflexivity.
Qed.

Lemma files_effect_returns (env : environment) (ks : list file_type) :
  forall written,
    (exists r, files_effect env ks written = Returned r)
    <-> (forall k, In k ks -> extractor_error env k = None).
Proof.
  induction ks as [|k rest IH]; intro written.
  - split; [intros _ k []| intros _; now eexists].
  - cbn [files_effect]. pose proof (file_effect_error env k written) as E.
    destruct (file_effect env k written) as [r1|e]; cbn [obind].
    + specialize (IH (snd r1)).
      destruct (files_effect env rest (snd r1)) as [r2|e]; cbn [obind].
      * split; [|intros _; now eexists].
        intros _ k' [<-|Hin]; [exact E|]. apply IH; [now eexists|exact Hin].
      * split; [intros [r H]; discriminate|].
        intro H. destruct IH as [_ IH]. destruct IH as [r Hr]; [|discriminate].
        intros k' Hin. apply H. now right.
    + split; [intros [r H]; discriminate|].
      intro H. rewrite H in E by now left. discriminate.
Qed.

(* ================================================================= *)
(** ** The claims *)

Lemma ends_with_semicolon_closed (s : string) :
  ends_with_semicolon (s ++ ";") = true.
Proof.
  unfold ends_with_semicolon.
  assert (H : last_char (s ++ ";") = Some ";"%char).
  { induction s as [|a s IH]; [reflexivity|].
    cbn [String.append last_char]. rewrite IH.
    destruct (s ++ ";") eqn:E; [|reflexivity].
    destruct s; discriminate. }
  now rewrite H.
Qed.

Lemma count_statements_emitted (insert_into : string) (groups : list (list string)) :
  ends_with_semicolon insert_into = false ->
  insert_into <> EmptyString ->
  count_statements insert_into (emitted insert_into groups) = List.length groups.
Proof.
  intros Hs Hne. unfold count_statements, emitted.
  destruct groups as [|g gs]; [reflexivity|].
  rewrite count_occ_app. cbn [count_occ].
  destruct (string_dec EmptyString insert_into) as [E|_]; [now symmetry in E|].
  rewrite Nat.add_0_r.
  generalize (g :: gs) as l. clear g gs.
  induction l as [|g gs IH]; [reflexivity|].
  cbn [map List.concat List.length]. rewrite count_occ_app, IH.
  unfold statement. cbn [count_occ].
  destruct (string_dec insert_into insert_into) as [_|N]; [|now elim N].
  destruct (string_dec _ insert_into) as [E|_]; [|reflexivity].
  rewrite <- E, ends_with_semicolon_closed in Hs. discriminate.
Qed.

(** C1 (as amended): the anomaly and customer-baseline methods append
    their banner and then one [INSERT] statement per batch, the batches
    being consecutive groups of at most 1000 of the extracted rows (1000
    rows make one statement, 1001 make two); the segment-performance and
    ML-baseline methods put all the rows of a document into one
    statement, however many there are. Each statement is its head
    followed by the joined rows closed by a semicolon. *)
Theorem insert_batching (data : value) (st : state) :
  process_behavioral_anomalies data st
  = Returned (tt, if truthy data
                  then extend st (anomalies_banner
                         :: emitted anomalies_insert (batches (anomaly_values data)))
                  else st)
  /\ process_customer_baselines data st
     = Returned (tt, if truthy data
                     then extend st (customer_baselines_banner
                            :: emitted customer_baselines_insert
                                 (batches (baseline_values data)))
                     else st)
  /\ process_segment_performance data st
     = Returned (tt, if truthy data
                     then extend st (segment_performance_banner
                            :: emitted segment_performance_insert
                                 (whole (segment_values data)))
                     else st)
  /\ (forall source_name values,
        truthy data = true ->
        ml_rows source_name data = Returned values ->
        exists st',
          process_ml_baselines data source_name st = Returned (tt, st')
          /\ sql_sections st'
             = (sql_sections st
                  ++ (if section4_header_written st then [] else [ml_baselines_banner])
                  ++ emitted ml_baselines_insert (whole values))%list)
  /\ (forall values : list string,
        List.concat (batches values) = values
        /\ Forall (fun b => 1 <= List.length b <= 1000) (batches values)
        /\ List.length (batches values) = (List.length values + 999) / 1000
        /\ (List.length values = 1000 -> batches values = [values])
        /\ (List.length values = 1001 ->
            batches values = [firstn 1000 values; skipn 1000 values])
        /\ List.length (whole values) <= 1)
  /\ (forall insert_into groups,
        In insert_into [anomalies_insert; customer_baselines_insert;
                        segment_performance_insert; ml_baselines_insert] ->
        count_statements insert_into (emitted insert_into groups) = List.length groups)
  /\ (forall insert_into rows,
        exists text,
          statement insert_into rows = [insert_into; text]
          /\ ends_with_semicolon text = true).
Proof.
  split; [apply process_behavioral_anomalies_run|].
  split; [apply process_customer_baselines_run|].
  split; [apply process_segment_performance_run|].
  split.
  { intros source_name values T R. rewrite process_ml_baselines_run, T, R.
    eexists. split; [reflexivity|]. reflexivity. }
  split.
  { intro values.
    split; [apply concat_batches|].
    split; [apply batches_bounded|].
    split; [rewrite batches_count; unfold batch_size; f_equal; lia|].
    split; [|split].
    - intro L. rewrite batches_chunks, L.
      change ((1000 + batch_size - 1) / batch_size) with 1.
      cbn [seq map]. unfold chunk_at. change (0 * batch_size) with 0.
      rewrite skipn_O, firstn_all2; [reflexivity|]. unfold batch_size. lia.
    - intro L. rewrite batches_chunks, L.
      change ((1001 + batch_size - 1) / batch_size) with 2.
      cbn [seq map]. unfold chunk_at.
      change (0 * batch_size) with 0. change (1 * batch_size) with batch_size.
      rewrite skipn_O. change batch_size with 1000.
      f_equal. f_equal. apply firstn_all2. rewrite length_skipn. lia.
    - destruct values; cbn; lia. }
  split.
  { intros insert_into groups Hin. apply count_statements_emitted.
    - cbn in Hin. decompose [or] Hin; subst; try reflexivity. contradiction.
    - cbn in Hin. decompose [or] Hin; subst; try discriminate. contradiction. }
  intros insert_into rows. eexists. split; [reflexivity|].
  apply ends_with_semicolon_closed.
Qed.

(** C2: on a boolean the sanitizer returns the text [True] or [False],
    not [1] or [0]: a [bool] passes the [(int, float)] test, which comes
    first, and the branch for booleans is never reached. *)
Theorem escape_sql_string_bool (b : bool) :
  escape_sql_string (VBool b) = if b then "True" else "False".
Proof. destruct b; reflexivity. Qed.

(** The other cases of the sanitizer: [None] gives [NULL], a number its
    text, and a string its text with the four replacements. *)
Lemma escape_sql_string_cases (z : Z) (x : float) (s : string) :
  escape_sql_string VNone = "NULL"
  /\ escape_sql_string (VInt z) = dec_Z z
  /\ escape_sql_string (VFloat x) = float_repr x
  /\ escape_sql_string (VStr s)
     = replace_char carriage_return " "
         (replace_char newline " "
            (replace_char dquote (String dquote (str1 dquote))
               (replace_char "'"%char "''" s))).
Proof. repeat split. Qed.

(** C3 (as amended): a file that fails to load is skipped: its step
    changes nothing and the files after it are processed as if it were
    not there. The conversion has no handler around the extractors: the
    step of a file raises exactly the exception its extractor raises,
    and the conversion returns, without an exception, exactly when no
    extractor raises on a file of the run. The anomaly,
    customer-baseline and segment-performance extractors never raise. *)
Theorem load_failure_contained (env : environment) (st : state) :
  (forall k rest,
      file_at env k = Unreadable ->
      process_file env k st = Returned (tt, st)
      /\ for_each (k :: rest) (process_file env) st
         = for_each rest (process_file env) st)
  /\ (forall k e,
        process_file env k st = Raised e <-> extractor_error env k = Some e)
  /\ ((exists b st', convert_all env st = Returned (b, st'))
      <-> (forall k, In k (detect_json_files env) -> extractor_error env k = None))
  /\ (forall data,
        exists st1 st2 st3,
          process_behavioral_anomalies data st = Returned (tt, st1)
          /\ process_customer_baselines data st = Returned (tt, st2)
          /\ process_segment_performance data st = Returned (tt, st3)).
Proof.
  split; [|split; [|split]].
  - intros k rest U.
    assert (P : process_file env k st = Returned (tt, st)).
    { unfold process_file, load_json_safe. rewrite U. reflexivity. }
    split; [exact P|]. cbn [for_each]. unfold bind. now rewrite P.
  - intros k e. rewrite process_file_run.
    pose proof (file_effect_error env k (section4_header_written st)) as E.
    destruct (file_effect env k (section4_header_written st)) as [r|e'].
    + split; [discriminate|]. rewrite E. discriminate.
    + rewrite E. split; intro H; now injection H as ->.
  - rewrite convert_all_run.
    destruct (detect_json_files env) as [|k ks] eqn:D.
    + split; [intros _ k []|intros _; now do 2 eexists].
    + rewrite <- (files_effect_returns env (k :: ks) (section4_header_written st)).
      destruct (files_effect env (k :: ks) (section4_header_written st)) as [r|e].
      * split; [intros _; now eexists|intros _].
        cbn zeta. destruct (write_fails env); now do 2 eexists.
      * split; [intros (b & st' & H); discriminate|intros [r H]; discriminate].
  - intro data. do 3 eexists.
    rewrite process_behavioral_anomalies_run, process_customer_baselines_run,
      process_segment_performance_run. repeat split.
Qed.

(** C4 (as amended): [customer_id], [severity], [flags] and [types] take
    the value of the first candidate key whose value is truthy, so a
    candidate that is present with an empty, zero, false or null value
    is passed over; after these candidates [severity] and [flags] take
    [riskscore], and [types] takes [changes], whenever that key is
    present; [customer_segment] and [value_tier] take the first candidate
    key that is present, whatever its value. The default is used when no
    candidate is taken, and a list of types is joined with commas. *)
Theorem anomaly_field_resolution (r : record) (record_count : nat) :
  customer_id (extract_anomaly r record_count)
  = or_default (first_truthy r ["customer_id"; "customerid"])
      (VStr ("UNKNOWN_" ++ dec_nat record_count))
  /\ customer_segment (extract_anomaly r record_count)
     = or_default (first_present r ["customer_segment"; "customersegment"])
         (VStr "Unknown")
  /\ value_tier (extract_anomaly r record_count)
     = or_default (first_present r ["value_tier"; "valuetier"]) (VStr "Unknown")
  /\ severity (extract_anomaly r record_count)
     = or_default (first_truthy r ["severity"; "anomaly_severity"])
         (or_default (first_present r ["riskscore"]) (VStr "Normal"))
  /\ flags (extract_anomaly r record_count)
     = or_default (first_truthy r ["flags"; "anomaly_flags"])
         (or_default (first_present r ["riskscore"]) (VInt 0))
  /\ types (extract_anomaly r record_count)
     = joined_types
         (or_default (first_truthy r ["types"; "anomaly_types"])
            (or_default (first_present r ["changes"]) (VStr EmptyString))).
Proof.
  unfold extract_anomaly, py_or, get_default, or_default, joined_types.
  cbn [customer_id customer_segment value_tier severity flags types
       first_truthy first_present].
  repeat split.
  - destruct (truthy (get r "customer_id")); [reflexivity|].
    destruct (truthy (get r "customerid")); reflexivity.
  - destruct (lookup r "customer_segment"); [reflexivity|].
    destruct (lookup r "customersegment"); reflexivity.
  - destruct (lookup r "value_tier"); [reflexivity|].
    destruct (lookup r "valuetier"); reflexivity.
  - destruct (truthy (get r "severity")); [reflexivity|].
    destruct (truthy (get r "anomaly_severity")); [reflexivity|].
    destruct (lookup r "riskscore"); reflexivity.
  - destruct (truthy (get r "flags")); [reflexivity|].
    destruct (truthy (get r "anomaly_flags")); [reflexivity|].
    destruct (lookup r "riskscore"); reflexivity.
  - destruct (truthy (get r "types")); [reflexivity|].
    destruct (truthy (get r "anomaly_types")); [reflexivity|].
    destruct (lookup r "changes"); reflexivity.
Qed.

Lemma py_mul_float_number (v : value) (x c : float) :
  py_float v = Returned x ->
  py_mul_float v c = Returned (VFloat (PrimFloat.mul x c)).
Proof.
  intro F. destruct v; try discriminate; unfold py_mul_float; now rewrite F.
Qed.

Lemma metric_fields_no_thresholds (md : record) :
  lookup md "upper_threshold" = None ->
  lookup md "max" = None ->
  lookup md "lower_threshold" = None ->
  lookup md "min" = None ->
  metric_fields (VDict md)
  = (let v := get_default md "baseline" (get_default md "mean" (VFloat 0)) in
     if truthy v then
       obind (py_mul_float v 1.2) (fun upper =>
       obind (py_mul_float v 0.8) (fun lower =>
       Returned (v, upper, lower)))
     else Returned (v, VInt 0, VInt 0)).
Proof.
  intros U X L N. unfold metric_fields, get_default. rewrite U, X, L, N.
  cbv zeta. destruct (truthy _); reflexivity.
Qed.

(** C5 (as amended): for a metric that is a dict with none of the four
    threshold keys, the baseline is the value of [baseline], or, when
    that key is absent, the value of [mean]. When this value is falsy
    (zero, null, false, empty) both thresholds are the integer [0]; when
    it is truthy and a number of float value [x], they are the floats
    [x * 1.2] and [x * 0.8]. With neither key the baseline is [0.0] and
    both thresholds are [0]. *)
Theorem threshold_synthesis (md : record) :
  lookup md "upper_threshold" = None ->
  lookup md "max" = None ->
  lookup md "lower_threshold" = None ->
  lookup md "min" = None ->
  (forall v,
     lookup md "baseline" = Some v
     \/ (lookup md "baseline" = None /\ lookup md "mean" = Some v) ->
     (truthy v = false ->
      metric_fields (VDict md) = Returned (v, VInt 0, VInt 0))
     /\ (forall x,
           truthy v = true ->
           py_float v = Returned x ->
           metric_fields (VDict md)
           = Returned (v, VFloat (PrimFloat.mul x 1.2),
                       VFloat (PrimFloat.mul x 0.8))))
  /\ (lookup md "baseline" = None ->
      lookup md "mean" = None ->
      metric_fields (VDict md) = Returned (VFloat 0, VInt 0, VInt 0)).
Proof.
  intros U X L N. rewrite (metric_fields_no_thresholds md U X L N).
  unfold get_default. split.
  - intros v [B|[B M]]; rewrite B; [|rewrite M]; cbv zeta; split.
    + now intros ->.
    + intros x -> F. now rewrite !(py_mul_float_number v x) by exact F.
    + now intros ->.
    + intros x -> F. now rewrite !(py_mul_float_number v x) by exact F.
  - intros -> ->. reflexivity.
Qed.

Lemma first_list_under_none (d : record) (keys : list string) :
  named_list_present d keys = false -> first_list_under d keys = [].
Proof.
  induction keys as [|key rest IH]; [reflexivity|].
  cbn [named_list_present existsb first_list_under].
  intro H. apply orb_false_iff in H. destruct H as [H1 H2].
  destruct (lookup d key) as [[]|]; try discriminate; now apply IH.
Qed.

Lemma scan_for_records_find (d : record) :
  scan_for_records d
  = match find (fun kv => looks_like_anomalies (snd kv)) d with
    | Some (_, VList l) => l
    | _ => []
    end.
Proof.
  induction d as [|[k v] rest IH]; [reflexivity|].
  cbn [scan_for_records find snd].
  destruct (looks_like_anomalies v); [|exact IH].
  destruct v; reflexivity.
Qed.

Lemma looks_like_anomalies_spec (v : value) :
  looks_like_anomalies v = true <-> sequence_of_anomalies v.
Proof.
  split.
  - destruct v as [|b|z|f|s|[|[|b|z|f|s|items|first] rest]|entries];
      try discriminate.
    cbn [looks_like_anomalies]. intro H. apply existsb_exists in H.
    destruct H as (field & I & K). exists first, rest, field.
    split; [reflexivity|]. split; [exact I|].
    unfold has_key in K. destruct (lookup first field); discriminate.
  - intros (first & rest & field & -> & I & K). cbn [looks_like_anomalies].
    apply existsb_exists. exists field. split; [exact I|].
    unfold has_key. destruct (lookup first field); [reflexivity|now elim K].
Qed.

Lemma scan_for_records_first (before after : record) (key : string) (l : list value) :
  (forall kv, In kv before -> looks_like_anomalies (snd kv) = false) ->
  looks_like_anomalies (VList l) = true ->
  scan_for_records (before ++ (key, VList l) :: after)%list = l.
Proof.
  intros B T. induction before as [|[k v] rest IH].
  - cbn [app scan_for_records]. now rewrite T.
  - cbn [app scan_for_records].
    pose proof (B (k, v) (or_introl eq_refl)) as E. cbn [snd] in E. rewrite E.
    apply IH. intros kv I. apply B. now right.
Qed.

Lemma scan_for_records_nowhere (d : record) :
  (forall kv, In kv d -> looks_like_anomalies (snd kv) = false) ->
  scan_for_records d = [].
Proof.
  induction d as [|[k v] rest IH]; intro B; [reflexivity|].
  cbn [scan_for_records].
  pose proof (B (k, v) (or_introl eq_refl)) as E. cbn [snd] in E. rewrite E.
  apply IH. intros kv I. apply B. now right.
Qed.

(** C6: when none of [customer_anomalies], [behavioral_anomalies],
    [anomalies] maps to a list, the records are the first value of the
    document, in its order, that is a list whose first element is a
    mapping containing one of the keys [customer_id], [customerid],
    [severity], [changes]: the values before it that are not such lists
    are passed over, the values after it are not looked at, and the
    list is taken whole. There are no records when no value is such a
    list. *)
Theorem heuristic_scan (d : record) :
  named_list_present d ["customer_anomalies"; "behavioral_anomalies"; "anomalies"]
  = false ->
  (forall before key l after,
     d = (before ++ (key, VList l) :: after)%list ->
     (forall kv, In kv before -> ~ sequence_of_anomalies (snd kv)) ->
     sequence_of_anomalies (VList l) ->
     locate_anomaly_records (VDict d) = l)
  /\ ((forall kv, In kv d -> ~ sequence_of_anomalies (snd kv)) ->
      locate_anomaly_records (VDict d) = []).
Proof.
  intro H. unfold locate_anomaly_records.
  change ["customer_anomalies"; "behavioral_anomalies"; "anomalies"]
    with anomaly_container_keys in H.
  rewrite (first_list_under_none d _ H).
  assert (N : forall v, ~ sequence_of_anomalies v -> looks_like_anomalies v = false).
  { intros v K. destruct (looks_like_anomalies v) eqn:E; [|reflexivity].
    elim K. now apply looks_like_anomalies_spec. }
  split.
  - intros before key l after -> B T. apply scan_for_records_first.
    + intros kv I. apply N, B, I.
    + now apply looks_like_anomalies_spec.
  - intro B. apply scan_for_records_nowhere. intros kv I. apply N, B, I.
Qed.

Lemma scan_for_records_none (d : record) :
  existsb (fun kv => looks_like_anomalies (snd kv)) d = false ->
  scan_for_records d = [].
Proof.
  induction d as [|[k v] rest IH]; [reflexivity|].
  cbn [existsb scan_for_records snd]. intro H.
  apply orb_false_iff in H. destruct H as [H1 H2]. rewrite H1. now apply IH.
Qed.

Lemma ml_rows_unrecognized (source_name : string) (data : value) :
  unrecognized_metrics data = true -> ml_rows source_name data = Returned [].
Proof.
  destruct data; try reflexivity. cbn [unrecognized_metrics ml_rows].
  induction entries as [|[k v] rest IH]; [reflexivity|].
  cbn [forallb collect snd]. intro H.
  apply andb_true_iff in H. destruct H as [H1 H2].
  destruct v; try discriminate; cbn [obind]; rewrite (IH H2); reflexivity.
Qed.

(** C7: a document of no recognized structure yields no row and no
    error; and when an extractor has no row, its method returns having
    appended its banner at most, so no [INSERT] statement. Every
    statement that is emitted has at least one row. *)
Theorem unrecognized_document_no_insert (data : value) (st : state) :
  (unrecognized_anomalies data = true -> anomaly_values data = [])
  /\ (unrecognized_records baseline_container_keys data = true ->
      baseline_values data = [])
  /\ (unrecognized_records segment_container_keys data = true ->
      segment_values data = [])
  /\ (unrecognized_metrics data = true ->
      forall source_name, ml_rows source_name data = Returned [])
  /\ (anomaly_values data = [] ->
      process_behavioral_anomalies data st
      = Returned (tt, if truthy data then extend st [anomalies_banner] else st))
  /\ (baseline_values data = [] ->
      process_customer_baselines data st
      = Returned (tt, if truthy data then extend st [customer_baselines_banner]
                      else st))
  /\ (segment_values data = [] ->
      process_segment_performance data st
      = Returned (tt, if truthy data then extend st [segment_performance_banner]
                      else st))
  /\ (forall source_name,
        ml_rows source_name data = Returned [] ->
        process_ml_baselines data source_name st
        = Returned (tt, if truthy data
                        then leave st (if section4_header_written st then []
                                       else [ml_baselines_banner], true)
                        else st))
  /\ (forall insert_into st0,
        emit_batched insert_into [] st0 = Returned (tt, st0)
        /\ emit_single insert_into [] st0 = Returned (tt, st0))
  /\ (forall values : list string,
        Forall (fun rows => rows <> []) (batches values)
        /\ Forall (fun rows => rows <> []) (whole values)).
Proof.
  repeat apply conj.
  - unfold unrecognized_anomalies, anomaly_values.
    destruct data; try discriminate; try reflexivity.
    intro H. apply andb_true_iff in H. destruct H as [H1 H2].
    apply negb_true_iff in H1, H2. unfold locate_anomaly_records.
    now rewrite (first_list_under_none _ _ H1), (scan_for_records_none _ H2).
  - unfold unrecognized_records, baseline_values.
    destruct data; try reflexivity.
    intro H. apply negb_true_iff in H. unfold locate_baseline_records.
    now rewrite (first_list_under_none _ _ H).
  - unfold unrecognized_records, segment_values.
    destruct data; try reflexivity.
    intro H. apply negb_true_iff in H. unfold locate_segment_records.
    now rewrite (first_list_under_none _ _ H).
  - intros H source_name. now apply ml_rows_unrecognized.
  - intro H. rewrite process_behavioral_anomalies_run.
    unfold anomalies_sections. now rewrite H.
  - intro H. rewrite process_customer_baselines_run.
    unfold customer_baselines_sections. now rewrite H.
  - intro H. rewrite process_segment_performance_run.
    unfold segment_performance_sections. now rewrite H.
  - intros source_name H. rewrite process_ml_baselines_run, H.
    destruct (truthy data); [|reflexivity].
    unfold ml_baselines_sections, leave. cbn [emitted whole fst snd].
    now rewrite app_nil_r.
  - intros insert_into st0. split; reflexivity.
  - intro values. split.
    + eapply Forall_impl; [|apply batches_bounded].
      intros rows [B _] E. rewrite E in B. cbn in B. lia.
    + destruct values; repeat constructor. discriminate.
Qed.

Lemma extractors_return_iff (env : environment) :
  extractors_return env = true
  <-> (forall k, In k (detect_json_files env) -> extractor_error env k = None).
Proof.
  unfold extractors_return. rewrite forallb_forall.
  split; intros H k Hin; specialize (H k Hin);
    destruct (extractor_error env k); congruence.
Qed.

(** C8 (as amended): when no extractor raises on a file of the run, the
    conversion returns; it returns failure exactly when no catalogued
    file is present or the output cannot be written, and success, with
    the output written, in every other such run. *)
Theorem convert_all_result (env : environment) (st : state) :
  extractors_return env = true ->
  exists b st',
    convert_all env st = Returned (b, st')
    /\ (b = false <-> detect_json_files env = [] \/ write_fails env = true)
    /\ (b = true -> output_file st' <> None).
Proof.
  intro H0. pose proof (proj1 (extractors_return_iff env) H0) as H.
  rewrite convert_all_run.
  destruct (detect_json_files env) as [|k ks] eqn:D.
  - exists false, st. repeat split; auto; discriminate.
  - apply (files_effect_returns env (k :: ks) (section4_header_written st)) in H.
    destruct H as [r ->]. cbn zeta.
    destruct (write_fails env); do 2 eexists; (split; [reflexivity|]); split.
    + split; auto.
    + discriminate.
    + split; [discriminate|]. intros [E|E]; discriminate.
    + intros _. discriminate.
Qed.

Lemma files_effect_In (env : environment) (ks : list file_type) :
  forall written r k,
    files_effect env ks written = Returned r ->
    In k ks ->
    exists written' r1,
      file_effect env k written' = Returned r1 /\ incl (fst r1) (fst r).
Proof.
  induction ks as [|k0 rest IH]; intros written r k E Hin; [destruct Hin|].
  cbn [files_effect] in E.
  destruct (file_effect env k0 written) as [r1|e] eqn:E1; [|discriminate].
  cbn [obind] in E.
  destruct (files_effect env rest (snd r1)) as [r2|e] eqn:E2; [|discriminate].
  cbn [obind] in E. injection E as <-. cbn [fst].
  destruct Hin as [<-|Hin].
  - exists written, r1. split; [exact E1|]. apply incl_appl, incl_refl.
  - destruct (IH _ _ _ E2 Hin) as (w' & rk & Ek & Hincl).
    exists w', rk. split; [exact Ek|]. now apply incl_appr.
Qed.

Lemma file_patterns_complete (k : file_type) : In k file_patterns.
Proof. destruct k; cbn; tauto. Qed.

(** C9: for a truthy document each of the first three methods appends
    its banner first, and nothing else when there is no row; and when
    such a document is the parsed content of the method's file, the
    banner is one of the sections of the output document written by the
    run. *)
Theorem banner_before_shape_matching (data : value) (st : state) :
  truthy data = true ->
  (exists rest,
      process_behavioral_anomalies data st
      = Returned (tt, extend st (anomalies_banner :: rest))
      /\ (anomaly_values data = [] -> rest = []))
  /\ (exists rest,
        process_customer_baselines data st
        = Returned (tt, extend st (customer_baselines_banner :: rest))
        /\ (baseline_values data = [] -> rest = []))
  /\ (exists rest,
        process_segment_performance data st
        = Returned (tt, extend st (segment_performance_banner :: rest))
        /\ (segment_values data = [] -> rest = []))
  /\ (forall env k banner,
        In (k, banner) [(behavioral_anomalies, anomalies_banner);
                        (customer_comprehensive, customer_baselines_banner);
                        (customer_segments, segment_performance_banner)] ->
        file_at env k = Parsed data ->
        extractors_return env = true ->
        write_fails env = false ->
        exists st' sections,
          convert_all env st = Returned (true, st')
          /\ output_file st' = Some (join (str1 newline) (sql_content env sections))
          /\ In banner sections).
Proof.
  intro T. repeat apply conj.
  - rewrite process_behavioral_anomalies_run, T. eexists. split; [reflexivity|].
    intro E. now rewrite E.
  - rewrite process_customer_baselines_run, T. eexists. split; [reflexivity|].
    intro E. now rewrite E.
  - rewrite process_segment_performance_run, T. eexists. split; [reflexivity|].
    intro E. now rewrite E.
  - intros env k banner Hk P R W.
    assert (Hin : In k (detect_json_files env)).
    { unfold detect_json_files. apply filter_In. split.
      - apply file_patterns_complete.
      - unfold file_exists. now rewrite P. }
    pose proof (proj1 (extractors_return_iff env) R) as R'.
    apply (files_effect_returns env _ (section4_header_written st)) in R'.
    clear R. revert Hin R'. rewrite convert_all_run.
    destruct (detect_json_files env) as [|k0 ks]; intros Hin [r R]; [destruct Hin|].
    rewrite R, W. cbn zeta. do 2 eexists. split; [reflexivity|]. split; [reflexivity|].
    cbn [leave sql_sections]. apply in_or_app. right.
    destruct (files_effect_In env _ _ _ k R Hin) as (w' & r1 & E1 & Hincl).
    apply Hincl. unfold file_effect, load_json_safe in E1. rewrite P, T in E1.
    cbn in Hk. decompose [or] Hk; try contradiction;
      match goal with H : (_, _) = (_, _) |- _ => injection H as <- <- end;
      injection E1 as <-; now left.
Qed.

Lemma files_effect_ext (env env' : environment) (ks : list file_type) :
  (forall k written, file_effect env k written = file_effect env' k written) ->
  forall written, files_effect env ks written = files_effect env' ks written.
Proof.
  intro H. induction ks as [|k rest IH]; intro written; [reflexivity|].
  cbn [files_effect]. rewrite H.
  destruct (file_effect env' k written) as [r1|e]; [|reflexivity].
  cbn [obind]. now rewrite IH.
Qed.

(** C10: a file that parses to a falsy document is not handed to its
    extractor: its step leaves the state as it was (no banner, no
    row), the files after it are processed as if it were not there, and
    the whole run is the run in which that file fails to parse. An
    empty mapping, an empty list, 0, false, null and the empty string
    are falsy. *)
Theorem falsy_document_skipped
  (env : environment) (k : file_type) (v : value) (st : state) :
  file_at env k = Parsed v ->
  truthy v = false ->
  process_file env k st = Returned (tt, st)
  /\ (forall rest,
        for_each (k :: rest) (process_file env) st
        = for_each rest (process_file env) st)
  /\ convert_all env st = convert_all (with_file env k Unreadable) st
  /\ Forall (fun falsy => truthy falsy = false)
       [VDict []; VList []; VInt 0; VBool false; VNone; VStr EmptyString].
Proof.
  intros P T.
  assert (S : process_file env k st = Returned (tt, st)).
  { unfold process_file, load_json_safe. now rewrite P, T. }
  split; [exact S|]. split; [|split].
  - intro rest. cbn [for_each]. unfold bind. now rewrite S.
  - rewrite !convert_all_run.
    assert (D : detect_json_files (with_file env k Unreadable) = detect_json_files env).
    { unfold detect_json_files. apply filter_ext. intro k'.
      unfold file_exists, with_file. cbn [file_at].
      destruct (file_type_eq_dec k' k) as [->|_]; [now rewrite P|reflexivity]. }
    assert (F : forall k' written,
               file_effect (with_file env k Unreadable) k' written
               = file_effect env k' written).
    { intros k' written. unfold file_effect, load_json_safe, with_file.
      cbn [file_at]. destruct (file_type_eq_dec k' k) as [->|_]; [|reflexivity].
      rewrite P, T. reflexivity. }
    rewrite D. destruct (detect_json_files env) as [|k0 ks]; [reflexivity|].
    rewrite (files_effect_ext _ _ _ F). reflexivity.
  - repeat constructor.
Qed.

(* ================================================================= *)
(** ** Further properties: the sanitizer *)

Lemma contains_char_app (c : ascii) (s t : string) :
  contains_char c (s ++ t) = contains_char c s || contains_char c t.
Proof.
  induction s as [|a s IH]; [reflexivity|].
  cbn [String.append contains_char]. now rewrite IH, orb_assoc.
Qed.

Lemma replace_char_removes (c : ascii) (by_ s : string) :
  contains_char c by_ = false ->
  contains_char c (replace_char c by_ s) = false.
Proof.
  intro H. induction s as [|a s IH]; [reflexivity|].
  cbn [replace_char]. destruct (Ascii.eqb a c) eqn:E.
  - now rewrite contains_char_app, H, IH.
  - cbn [contains_char]. now rewrite E, IH.
Qed.

Lemma replace_char_keeps_absent (x c : ascii) (by_ s : string) :
  contains_char x by_ = false ->
  contains_char x s = false ->
  contains_char x (replace_char c by_ s) = false.
Proof.
  intro H. induction s as [|a s IH]; [reflexivity|].
  cbn [contains_char replace_char]. intro A.
  apply orb_false_iff in A. destruct A as [A1 A2].
  destruct (Ascii.eqb a c).
  - now rewrite contains_char_app, H, IH.
  - cbn [contains_char]. now rewrite A1, IH.
Qed.

Lemma replace_char_absent (c : ascii) (by_ s : string) :
  contains_char c s = false -> replace_char c by_ s = s.
Proof.
  induction s as [|a s IH]; [reflexivity|].
  cbn [contains_char replace_char]. intro A.
  apply orb_false_iff in A. destruct A as [A1 A2].
  now rewrite A1, IH.
Qed.

Lemma quotes_paired_app (q : ascii) (s t : string) :
  contains_char q s = false ->
  quotes_paired q (s ++ t) = quotes_paired q t.
Proof.
  induction s as [|a s IH]; [reflexivity|].
  cbn [contains_char String.append quotes_paired]. intro A.
  apply orb_false_iff in A. destruct A as [A1 A2].
  now rewrite A1, IH.
Qed.

Lemma replace_char_pairs (q : ascii) (s : string) :
  quotes_paired q (replace_char q (String q (str1 q)) s) = true.
Proof.
  induction s as [|a s IH]; [reflexivity|].
  cbn [replace_char]. destruct (Ascii.eqb a q) eqn:E.
  - cbn [String.append str1 quotes_paired]. now rewrite Ascii.eqb_refl, IH.
  - cbn [quotes_paired]. now rewrite E, IH.
Qed.

Lemma replace_char_keeps_pairs (q c : ascii) (by_ : string) :
  Ascii.eqb q c = false ->
  contains_char q by_ = false ->
  forall s,
    (quotes_paired q s = true -> quotes_paired q (replace_char c by_ s) = true)
    /\ (quotes_paired q (String q s) = true ->
        quotes_paired q (String q (replace_char c by_ s)) = true).
Proof.
  intros Hqc Hby. induction s as [|a s [IH1 IH2]].
  - split; intro H; exact H.
  - split.
    + cbn [replace_char]. destruct (Ascii.eqb a c) eqn:Eac.
      * apply Ascii.eqb_eq in Eac. subst a.
        cbn [quotes_paired]. rewrite Ascii.eqb_sym, Hqc.
        intro P. rewrite quotes_paired_app by exact Hby. now apply IH1.
      * destruct (Ascii.eqb a q) eqn:Eaq.
        -- apply Ascii.eqb_eq in Eaq. subst a. exact IH2.
        -- cbn [quotes_paired]. rewrite Eaq. exact IH1.
    + cbn [quotes_paired]. rewrite Ascii.eqb_refl.
      destruct (Ascii.eqb a q) eqn:Eaq; [|discriminate].
      apply Ascii.eqb_eq in Eaq. subst a.
      cbn [replace_char]. rewrite Hqc. cbn [andb].
      rewrite Ascii.eqb_refl. cbn [andb]. exact IH1.
Qed.

(** The four replacements of the sanitizer on any text. *)
Lemma sanitized_text (s : string) :
  let t := replace_char carriage_return " "
             (replace_char newline " "
                (replace_char dquote (String dquote (str1 dquote))
                   (replace_char "'"%char "''" s))) in
  contains_char newline t = false
  /\ contains_char carriage_return t = false
  /\ quotes_paired "'"%char t = true
  /\ quotes_paired dquote t = true.
Proof.
  cbn zeta. repeat split.
  - apply replace_char_keeps_absent; [reflexivity|].
    now apply replace_char_removes.
  - now apply replace_char_removes.
  - apply replace_char_keeps_pairs; [reflexivity|reflexivity|].
    apply replace_char_keeps_pairs; [reflexivity|reflexivity|].
    apply replace_char_keeps_pairs; [reflexivity|reflexivity|].
    apply (replace_char_pairs "'"%char).
  - apply replace_char_keeps_pairs; [reflexivity|reflexivity|].
    apply replace_char_keeps_pairs; [reflexivity|reflexivity|].
    apply replace_char_pairs.
Qed.

(** X1: whatever value that is not a number the sanitizer is given
    (null, a string, a list, a dict), its result has no line feed and no
    carriage return, and every single quote and every double quote in it
    is one of a pair. Nothing is said of other characters. *)
Theorem escape_sql_string_one_literal (v : value) :
  isinstance_int_float v = false ->
  contains_char newline (escape_sql_string v) = false
  /\ contains_char carriage_return (escape_sql_string v) = false
  /\ quotes_paired "'"%char (escape_sql_string v) = true
  /\ quotes_paired dquote (escape_sql_string v) = true.
Proof.
  intro N. destruct v; try discriminate.
  - repeat split.
  - apply sanitized_text.
  - apply (sanitized_text (py_str (VList items))).
  - apply (sanitized_text (py_str (VDict entries))).
Qed.

(** X2: a string with no single quote, double quote, line feed or
    carriage return comes out of the sanitizer unchanged: nothing else
    is escaped, a backslash no more than a letter. *)
Theorem escape_sql_string_clean (s : string) :
  contains_char "'"%char s = false ->
  contains_char dquote s = false ->
  contains_char newline s = false ->
  contains_char carriage_return s = false ->
  escape_sql_string (VStr s) = s.
Proof.
  intros Q D N R. cbn [escape_sql_string isinstance_int_float isinstance_bool py_str].
  now rewrite (replace_char_absent _ _ s Q), (replace_char_absent _ _ s D),
    (replace_char_absent _ _ s N), (replace_char_absent _ _ s R).
Qed.

(* ================================================================= *)
(** ** Further properties: locating and extracting records *)

Lemma first_list_under_app (d : record) (pre rest : list string) :
  named_list_present d pre = false ->
  first_list_under d (pre ++ rest) = first_list_under d rest.
Proof.
  induction pre as [|key pre IH]; [reflexivity|].
  cbn [named_list_present existsb app first_list_under]. intro H.
  apply orb_false_iff in H. destruct H as [H1 H2].
  destruct (lookup d key) as [[]|]; try discriminate; now apply IH.
Qed.

(** X3: the container keys are tried in order and the first one that
    maps to a list decides, also when that list is empty. For customer
    baselines and segment performance an empty list under an earlier key
    therefore hides the records under a later key; for anomalies an
    empty list sends the extractor to the scan of all values, and a
    non-empty one is taken without any scan. *)
Theorem first_container_key_decides
  (d : record) (pre post : list string) (k : string) (l : list value) :
  named_list_present d pre = false ->
  lookup d k = Some (VList l) ->
  first_list_under d (pre ++ k :: post) = l
  /\ (baseline_container_keys = (pre ++ k :: post)%list ->
      locate_baseline_records (VDict d) = l)
  /\ (segment_container_keys = (pre ++ k :: post)%list ->
      locate_segment_records (VDict d) = l)
  /\ (anomaly_container_keys = (pre ++ k :: post)%list ->
      locate_anomaly_records (VDict d)
      = match l with
        | [] => scan_for_records d
        | _ => l
        end).
Proof.
  intros P L.
  assert (F : first_list_under d (pre ++ k :: post) = l).
  { rewrite (first_list_under_app d pre _ P). cbn [first_list_under]. now rewrite L. }
  split; [exact F|]. repeat split; intro E.
  - unfold locate_baseline_records. now rewrite E.
  - unfold locate_segment_records. now rewrite E.
  - unfold locate_anomaly_records. rewrite E, F. destruct l; reflexivity.
Qed.

Lemma extract_anomalies_numbered (records : list value) :
  forall n,
    extract_anomalies records n
    = map (fun p => extract_anomaly (snd p) (fst p))
        (combine (seq n (List.length (dict_records records))) (dict_records records)).
Proof.
  induction records as [|v rest IH]; intro n; [reflexivity|].
  destruct v; cbn [extract_anomalies dict_records]; try apply IH.
  cbn [List.length seq combine map fst snd]. now rewrite IH.
Qed.

Lemma baseline_rows_indexed (records : list value) :
  forall i,
    baseline_rows records i
    = map (fun p => baseline_row (snd p) (fst p)) (indexed_dict_records records i).
Proof.
  induction records as [|v rest IH]; intro i; [reflexivity|].
  destruct v; cbn [baseline_rows indexed_dict_records]; try apply IH.
  cbn [map fst snd]. now rewrite IH.
Qed.

Lemma segment_rows_dicts (records : list value) :
  segment_rows records = map segment_row (dict_records records).
Proof.
  induction records as [|v rest IH]; [reflexivity|].
  destruct v; cbn [segment_rows dict_records]; try apply IH.
  cbn [map]. now rewrite IH.
Qed.

Lemma indexed_dict_records_spec (records : list value) :
  forall i,
    map snd (indexed_dict_records records i) = dict_records records
    /\ (forall j r,
          In (j, r) (indexed_dict_records records i)
          <-> (i <= j /\ nth_error records (j - i) = Some (VDict r))).
Proof.
  induction records as [|v rest IH]; intro i.
  - split; [reflexivity|]. intros j r. split; [intros []|].
    intros [_ H]. destruct (j - i); discriminate.
  - destruct (IH (S i)) as [IH1 IH2].
    assert (T : forall j r,
               In (j, r) (indexed_dict_records rest (S i))
               <-> (i <= j /\ j <> i /\ nth_error (v :: rest) (j - i) = Some (VDict r))).
    { intros j r. rewrite IH2. split.
      - intros [Hle Hn]. repeat split; try lia.
        replace (j - i) with (S (j - S i)) by lia. exact Hn.
      - intros (Hle & Hne & Hn). split; [lia|].
        replace (j - i) with (S (j - S i)) in Hn by lia. exact Hn. }
    assert (Z : forall j r,
               (i <= j /\ j <> i /\ nth_error (v :: rest) (j - i) = Some (VDict r))
               <-> (i <= j /\ nth_error (v :: rest) (j - i) = Some (VDict r)
                    /\ (j = i -> False))).
    { intros; tauto. }
    destruct v; cbn [indexed_dict_records dict_records map snd];
      try (split; [exact IH1|]; intros j r; rewrite T; split;
           [intros (A & _ & C); now split
           |intros [A C]; repeat split; try assumption;
            intros ->; rewrite Nat.sub_diag in C; discriminate]).
    split; [now rewrite IH1|]. intros j r. cbn [In]. rewrite T. split.
    + intros [E|(A & _ & C)]; [|now split].
      injection E as <- <-. split; [lia|]. now rewrite Nat.sub_diag.
    + intros [A C]. destruct (Nat.eq_dec j i) as [->|Hne].
      * left. rewrite Nat.sub_diag in C. now injection C as <-.
      * right. repeat split; assumption.
Qed.

Lemma row_counts (records : list value) (n i : nat) :
  List.length (extract_anomalies records n) = List.length (dict_records records)
  /\ List.length (baseline_rows records i) = List.length (dict_records records)
  /\ List.length (segment_rows records) = List.length (dict_records records).
Proof.
  destruct (indexed_dict_records_spec records i) as [S1 _].
  split; [|split].
  - rewrite extract_anomalies_numbered, length_map, length_combine, length_seq.
    apply Nat.min_id.
  - rewrite baseline_rows_indexed, length_map, <- S1. now rewrite length_map.
  - rewrite segment_rows_dicts. apply length_map.
Qed.

(** X4: each record extractor makes one row for each element of the
    record list that is a dict, in order, and skips every other element.
    The two placeholder numberings differ: an anomaly row is numbered by
    the dicts before it ([UNKNOWN_<n>] counts rows), a customer-baseline
    row by its position in the list ([CUST_<i>] counts all elements). *)
Theorem rows_of_dict_records (records : list value) (n i : nat) :
  extract_anomalies records n
  = map (fun p => extract_anomaly (snd p) (fst p))
      (combine (seq n (List.length (dict_records records))) (dict_records records))
  /\ baseline_rows records i
     = map (fun p => baseline_row (snd p) (fst p)) (indexed_dict_records records i)
  /\ segment_rows records = map segment_row (dict_records records)
  /\ map snd (indexed_dict_records records i) = dict_records records
  /\ (forall j r,
        In (j, r) (indexed_dict_records records i)
        <-> (i <= j /\ nth_error records (j - i) = Some (VDict r)))
  /\ List.length (extract_anomalies records n) = List.length (dict_records records)
  /\ List.length (baseline_rows records i) = List.length (dict_records records)
  /\ List.length (segment_rows records) = List.length (dict_records records).
Proof.
  destruct (indexed_dict_records_spec records i) as [S1 S2].
  split; [apply extract_anomalies_numbered|].
  split; [apply baseline_rows_indexed|].
  split; [apply segment_rows_dicts|].
  split; [exact S1|]. split; [exact S2|].
  apply row_counts.
Qed.

Lemma count_statements_section
  (banner insert_into : string) (groups : list (list string)) (before : list string) :
  banner <> insert_into ->
  ends_with_semicolon insert_into = false ->
  insert_into <> EmptyString ->
  count_statements insert_into (before ++ banner :: emitted insert_into groups)
  = count_statements insert_into before + List.length groups.
Proof.
  intros Hb Hs Hne. unfold count_statements.
  rewrite count_occ_app. cbn [count_occ].
  destruct (string_dec banner insert_into) as [E|_]; [contradiction|].
  f_equal. now apply count_statements_emitted.
Qed.

(** X5: a truthy anomaly or customer-baseline document with [n] dict
    records adds [n / 1000], rounded up, [INSERT] statements to the
    sections, and a segment-performance document adds one statement when
    it has a dict record and none otherwise. *)
Theorem statements_per_document (data : value) (st : state) :
  truthy data = true ->
  exists st1 st2 st3,
    process_behavioral_anomalies data st = Returned (tt, st1)
    /\ count_statements anomalies_insert (sql_sections st1)
       = count_statements anomalies_insert (sql_sections st)
         + (List.length (dict_records (locate_anomaly_records data)) + 999) / 1000
    /\ process_customer_baselines data st = Returned (tt, st2)
    /\ count_statements customer_baselines_insert (sql_sections st2)
       = count_statements customer_baselines_insert (sql_sections st)
         + (List.length (dict_records (locate_baseline_records data)) + 999) / 1000
    /\ process_segment_performance data st = Returned (tt, st3)
    /\ count_statements segment_performance_insert (sql_sections st3)
       = count_statements segment_performance_insert (sql_sections st)
         + Nat.min 1 (List.length (dict_records (locate_segment_records data))).
Proof.
  intro T. do 3 eexists.
  rewrite process_behavioral_anomalies_run, process_customer_baselines_run,
    process_segment_performance_run, T.
  split; [reflexivity|]. split; [|split; [reflexivity|split; [|split; [reflexivity|]]]].
  - cbn [extend sql_sections]. unfold anomalies_sections.
    rewrite count_statements_section; [|discriminate|reflexivity|discriminate].
    f_equal. rewrite batches_count. unfold anomaly_values.
    rewrite length_map.
    destruct (row_counts (locate_anomaly_records data) 0 0) as (L & _).
    rewrite L. unfold batch_size. f_equal. lia.
  - cbn [extend sql_sections]. unfold customer_baselines_sections.
    rewrite count_statements_section; [|discriminate|reflexivity|discriminate].
    f_equal. rewrite batches_count. unfold baseline_values.
    destruct (row_counts (locate_baseline_records data) 0 0) as (_ & L & _).
    rewrite L. unfold batch_size. f_equal. lia.
  - cbn [extend sql_sections]. unfold segment_performance_sections.
    rewrite count_statements_section; [|discriminate|reflexivity|discriminate].
    f_equal. unfold segment_values. rewrite segment_rows_dicts.
    destruct (dict_records (locate_segment_records data)); reflexivity.
Qed.

(* ================================================================= *)
(** ** Further properties: the metric-tree extractor *)

Lemma float_of_Z_overflow (z : Z) (e : exn) :
  float_of_Z z = Raised e -> e = OverflowError.
Proof.
  unfold float_of_Z. cbv zeta.
  destruct (PrimFloat.is_infinity _); [|discriminate].
  intro H. now injection H as <-.
Qed.

Lemma py_mul_float_raises (v : value) (c : float) (e : exn) :
  py_mul_float v c = Raised e <-> py_float v = Raised e.
Proof.
  destruct v as [|b|z|f|s|items|entries];
    cbn [py_mul_float py_float obind];
    try (split; intro H; injection H as <-; reflexivity);
    try (split; discriminate).
  destruct (float_of_Z z); cbn [obind]; split; try discriminate;
    intro H; injection H as <-; reflexivity.
Qed.


(** X6: the only failures of the metric extractor on one metric. A
    metric that is a dict raises exactly when its baseline (the value of
    [baseline], else of [mean]) is truthy and cannot be made a float,
    and then whether or not explicit thresholds are given, because the
    products are computed before the threshold keys are looked up. A
    bare metric raises only when it is an [int] too large for a float.
    The exception is [TypeError] for a baseline that is no number, and
    [OverflowError] for an [int] beyond the floats. *)
Theorem metric_fields_raises (m : value) (e : exn) :
  (metric_fields m = Raised e
   <-> match m with
       | VDict md => truthy (baseline_of md) = true
                     /\ py_float (baseline_of md) = Raised e
       | VInt z => float_of_Z z = Raised e
       | _ => False
       end)
  /\ (forall v,
        py_float v = Raised e
        <-> (e = TypeError /\ isinstance_int_float v = false)
            \/ (e = OverflowError /\ exists z, v = VInt z /\ float_of_Z z = Raised e)).
Proof.
  clear float_repr str_repr.
  split.
  - destruct m as [|b|z|f|s|items|entries];
      cbn [metric_fields isinstance_int_float py_float obind];
      try (split; [discriminate|tauto]).
    + destruct (float_of_Z z); cbn [obind]; split; try discriminate;
        intro H; injection H as <-; reflexivity.
    + unfold baseline_of.
      set (b := get_default entries "baseline" (get_default entries "mean" (VFloat 0))).
      destruct (truthy b) eqn:T.
      * destruct (py_mul_float b 1.2) as [u|e1] eqn:U; cbn [obind].
        -- destruct (py_mul_float b 0.8) as [l|e2] eqn:L; cbn [obind].
           ++ split; [discriminate|]. intros [_ F].
              apply (py_mul_float_raises b 1.2) in F. congruence.
           ++ apply py_mul_float_raises in L. split.
              ** intro H. injection H as <-. now split.
              ** intros [_ F]. congruence.
        -- apply py_mul_float_raises in U. split.
           ++ intro H. injection H as <-. now split.
           ++ intros [_ F]. congruence.
      * cbn [obind]. split; [discriminate|]. intros [F _]. discriminate.
  - intro v. destruct v as [|b|z|f|s|items|entries]; cbn [py_float isinstance_int_float].
    + split; [intro H; injection H as <-; now left|]. intros [[-> _]|[_ (z & E & _)]];
        [reflexivity|discriminate].
    + split; [discriminate|]. intros [[_ F]|[_ (z & E & _)]]; discriminate.
    + split.
      * intro H. right. split; [now apply (float_of_Z_overflow z)|].
        exists z. now split.
      * intros [[_ F]|[_ (z' & E & F)]]; [discriminate|]. now injection E as <-.
    + split; [discriminate|]. intros [[_ F]|[_ (z & E & _)]]; discriminate.
    + split; [intro H; injection H as <-; now left|]. intros [[-> _]|[_ (z & E & _)]];
        [reflexivity|discriminate].
    + split; [intro H; injection H as <-; now left|]. intros [[-> _]|[_ (z & E & _)]];
        [reflexivity|discriminate].
    + split; [intro H; injection H as <-; now left|]. intros [[-> _]|[_ (z & E & _)]];
        [reflexivity|discriminate].
Qed.


Lemma collect_ml_row (source_name dimension : string) (metrics : record) :
  match collect (ml_row source_name dimension) metrics with
  | Returned rows =>
      forallb (fun m => returns (metric_fields (snd m))) metrics = true
      /\ List.length rows = List.length metrics
  | Raised _ =>
      forallb (fun m => returns (metric_fields (snd m))) metrics = false
  end.
Proof.
  induction metrics as [|m rest IH]; [now split|].
  cbn [collect forallb]. unfold ml_row at 1.
  destruct (metric_fields (snd m)) as [[[b u] l]|e]; cbn [obind returns andb];
    [|reflexivity].
  destruct (collect (ml_row source_name dimension) rest) as [rows|e];
    cbn [obind]; [|exact IH].
  destruct IH as [A B]. split; [exact A|]. cbn [List.length app]. now rewrite B.
Qed.

(** X8: the metric extractor is all or nothing on a document: it
    returns rows exactly when every metric of the tree can be extracted,
    and then there is one row per metric; one metric that raises loses
    the rows of all the others. *)
Theorem ml_rows_all_or_nothing (source_name : string) (d : record) :
  ((exists rows, ml_rows source_name (VDict d) = Returned rows)
   <-> forallb (fun m => returns (metric_fields (snd m))) (metrics_of d) = true)
  /\ (forall rows,
        ml_rows source_name (VDict d) = Returned rows ->
        List.length rows = List.length (metrics_of d)).
Proof.
  cbn [ml_rows].
  assert (H : match collect (fun dm : string * value =>
                     match snd dm with
                     | VDict metrics => collect (ml_row source_name (fst dm)) metrics
                     | _ => Returned []
                     end) d with
              | Returned rows =>
                  forallb (fun m => returns (metric_fields (snd m))) (metrics_of d) = true
                  /\ List.length rows = List.length (metrics_of d)
              | Raised _ =>
                  forallb (fun m => returns (metric_fields (snd m))) (metrics_of d) = false
              end).
  { induction d as [|[dim v] rest IH]; [now split|].
    cbn [collect snd fst metrics_of].
    destruct v; cbn [obind]; try (destruct (collect _ rest); exact IH).
    pose proof (collect_ml_row source_name dim entries) as C.
    destruct (collect (ml_row source_name dim) entries) as [rows1|e]; cbn [obind].
    - destruct C as [C1 C2]. rewrite forallb_app, C1. cbn [andb].
      destruct (collect _ rest) as [rows2|e]; cbn [obind]; [|exact IH].
      destruct IH as [I1 I2]. split; [exact I1|].
      now rewrite !length_app, C2, I2.
    - rewrite forallb_app, C. reflexivity. }
  destruct (collect _ d) as [rows|e].
  - destruct H as [H1 H2]. split.
    + split; [intros _; exact H1|intros _; now eexists].
    + intros rows' E. now injection E as <-.
  - split.
    + split; [intros [rows E]; discriminate|intro F; congruence].
    + intros rows E. discriminate.
Qed.

(* ================================================================= *)
(** ** Further properties: the orchestrator *)

Lemma filter_keeps_sorted (f : file_type -> bool) (l : list file_type) :
  StronglySorted lt (map catalogue_index l) ->
  StronglySorted lt (map catalogue_index (filter f l)).
Proof.
  induction l as [|k rest IH]; [intros _; constructor|].
  cbn [map filter]. intro S. inversion S as [|? ? S' F]; subst.
  destruct (f k); [|now apply IH].
  cbn [map]. constructor; [now apply IH|].
  rewrite Forall_forall in *. intros n Hn. apply F.
  apply in_map_iff in Hn. destruct Hn as (k' & <- & Hk').
  apply in_map. apply filter_In in Hk'. tauto.
Qed.

Lemma increasing_NoDup (l : list nat) : StronglySorted lt l -> NoDup l.
Proof.
  induction 1 as [|n l S IH F]; constructor; [|exact IH].
  intro Hin. rewrite Forall_forall in F. specialize (F n Hin). lia.
Qed.

(** X9: [detect_json_files] returns exactly the catalogued files that
    exist, each once, in the order of the catalogue, whatever the order
    in which the folder lists them. *)
Theorem detect_json_files_catalogue (env : environment) :
  (forall k, In k (detect_json_files env) <-> file_at env k <> Missing)
  /\ NoDup (detect_json_files env)
  /\ StronglySorted lt (map catalogue_index (detect_json_files env))
  /\ List.length (detect_json_files env) <= 11.
Proof.
  assert (S : StronglySorted lt (map catalogue_index (detect_json_files env))).
  { apply filter_keeps_sorted. cbn. repeat constructor; lia. }
  split; [|split; [|split]].
  - intro k. unfold detect_json_files. rewrite filter_In. unfold file_exists.
    split.
    + intros [_ H] E. rewrite E in H. discriminate.
    + intro H. split; [apply file_patterns_complete|].
      destruct (file_at env k); [now elim H|reflexivity|reflexivity].
  - apply (NoDup_map_inv catalogue_index). now apply increasing_NoDup.
  - exact S.
  - unfold detect_json_files.
    etransitivity; [apply filter_length_le|]. cbn. lia.
Qed.

Lemma missing_file_no_effect (env : environment) (k : file_type) (written : bool) :
  file_exists env k = false -> file_effect env k written = Returned ([], written).
Proof.
  unfold file_exists, file_effect, load_json_safe.
  destruct (file_at env k); [reflexivity|discriminate|discriminate].
Qed.

Lemma files_effect_found (env : environment) (ks : list file_type) :
  forall written,
    files_effect env (filter (file_exists env) ks) written
    = files_effect env ks written.
Proof.
  induction ks as [|k rest IH]; intro written; [reflexivity|].
  cbn [filter]. destruct (file_exists env k) eqn:E.
  - cbn [files_effect]. destruct (file_effect env k written) as [r1|e]; [|reflexivity].
    cbn [obind]. now rewrite IH.
  - cbn [files_effect]. rewrite (missing_file_no_effect env k written E).
    cbn [obind fst snd]. rewrite IH.
    destruct (files_effect env rest written) as [[l w]|e]; reflexivity.
Qed.

(** X10: the sections of a run are laid out in catalogue order,
    whichever files are found: the step of a file that is missing does
    nothing, so the loop over the found files is the loop over the whole
    catalogue; and what it appends is the section of the anomaly file,
    then that of the customer-baseline file, then that of the
    segment-performance file, then what the six metric files give in
    their catalogue order (a file contributing nothing when its document
    is missing, unreadable or falsy). *)
Theorem sections_in_catalogue_order (env : environment) (st : state) :
  for_each (detect_json_files env) (process_file env) st
  = for_each file_patterns (process_file env) st
  /\ (forall metrics,
        files_effect env metric_files (section4_header_written st) = Returned metrics ->
        for_each (detect_json_files env) (process_file env) st
        = Returned
            (tt,
             leave st
               ((sections_if anomalies_sections (load_json_safe env behavioral_anomalies)
                   ++ sections_if customer_baselines_sections
                        (load_json_safe env customer_comprehensive)
                   ++ sections_if segment_performance_sections
                        (load_json_safe env customer_segments)
                   ++ fst metrics)%list,
                snd metrics)))
  /\ (forall e,
        files_effect env metric_files (section4_header_written st) = Raised e ->
        for_each (detect_json_files env) (process_file env) st = Raised e).
Proof.
  assert (F : files_effect env file_patterns (section4_header_written st)
              = obind (files_effect env metric_files (section4_header_written st))
                  (fun metrics =>
                   Returned
                     ((sections_if anomalies_sections
                         (load_json_safe env behavioral_anomalies)
                         ++ sections_if customer_baselines_sections
                              (load_json_safe env customer_comprehensive)
                         ++ sections_if segment_performance_sections
                              (load_json_safe env customer_segments)
                         ++ fst metrics)%list,
                      snd metrics))).
  { unfold file_patterns, metric_files, sections_if.
    set (w := section4_header_written st).
    cbn [files_effect]. unfold file_effect at 1 2 3 4 5. cbn [ml_source].
    destruct (truthy (load_json_safe env behavioral_anomalies)),
      (truthy (load_json_safe env customer_comprehensive)),
      (truthy (load_json_safe env customer_rfm)),
      (truthy (load_json_safe env customer_segments)),
      (truthy (load_json_safe env customer_value_tiers));
      cbn [obind fst snd];
      destruct (file_effect env category_baselines w) as [r1|?]; try reflexivity;
      cbn [obind];
      destruct (file_effect env product_anomalies (snd r1)) as [r2|?]; try reflexivity;
      cbn [obind];
      destruct (file_effect env ml_baselines (snd r2)) as [r3|?]; try reflexivity;
      cbn [obind];
      destruct (file_effect env executive_kpi_dashboard (snd r3)) as [r4|?];
      try reflexivity; cbn [obind];
      destruct (file_effect env executive_insights_summary (snd r4)) as [r5|?];
      try reflexivity; cbn [obind];
      destruct (file_effect env ml_baseline_consolidated (snd r5)) as [r6|?];
      try reflexivity; cbn [obind fst snd app];
      rewrite ?app_nil_r, <- ?app_assoc; reflexivity. }
  assert (D : for_each (detect_json_files env) (process_file env) st
              = for_each file_patterns (process_file env) st).
  { rewrite !for_each_files_run. unfold detect_json_files.
    now rewrite files_effect_found. }
  split; [exact D|]. split.
  - intros metrics M. rewrite D, for_each_files_run, F, M. reflexivity.
  - intros e M. rewrite D, for_each_files_run, F, M. reflexivity.
Qed.

Lemma no_banner_in_emitted (banner insert_into : string) (groups : list (list string)) :
  ends_with_semicolon banner = false ->
  banner <> EmptyString ->
  banner <> insert_into ->
  count_occ string_dec (emitted insert_into groups) banner = 0.
Proof.
  intros Hs Hne Hi. unfold emitted. destruct groups as [|g gs]; [reflexivity|].
  rewrite count_occ_app. cbn [count_occ].
  destruct (string_dec EmptyString banner) as [E|_]; [now symmetry in E|].
  rewrite Nat.add_0_r.
  generalize (g :: gs) as l. clear g gs.
  induction l as [|g gs IH]; [reflexivity|].
  cbn [map List.concat]. rewrite count_occ_app, IH.
  unfold statement. cbn [count_occ].
  destruct (string_dec insert_into banner) as [E|_]; [now symmetry in E|].
  destruct (string_dec _ banner) as [E|_]; [|reflexivity].
  rewrite <- E, ends_with_semicolon_closed in Hs. discriminate.
Qed.

Lemma other_sections_no_metric_banner (data : value) :
  count_occ string_dec (anomalies_sections data) ml_baselines_banner = 0
  /\ count_occ string_dec (customer_baselines_sections data) ml_baselines_banner = 0
  /\ count_occ string_dec (segment_performance_sections data) ml_baselines_banner = 0.
Proof.
  unfold anomalies_sections, customer_baselines_sections, segment_performance_sections.
  cbn [count_occ].
  destruct (string_dec anomalies_banner ml_baselines_banner) as [E|_];
    [discriminate E|].
  destruct (string_dec customer_baselines_banner ml_baselines_banner) as [E|_];
    [discriminate E|].
  destruct (string_dec segment_performance_banner ml_baselines_banner) as [E|_];
    [discriminate E|].
  repeat split; apply no_banner_in_emitted; (reflexivity || discriminate).
Qed.

Lemma metric_sections_banner (written : bool) (values : list string) :
  count_occ string_dec (ml_baselines_sections written values) ml_baselines_banner
  = if written then 0 else 1.
Proof.
  unfold ml_baselines_sections.
  rewrite count_occ_app, no_banner_in_emitted by (reflexivity || discriminate).
  destruct written; [reflexivity|]. cbn [count_occ].
  destruct (string_dec ml_baselines_banner ml_baselines_banner) as [_|N];
    [reflexivity|now elim N].
Qed.

Lemma file_effect_banner (env : environment) (k : file_type) (written : bool) :
  match file_effect env k written with
  | Returned (l, written') =>
      count_occ string_dec l ml_baselines_banner
      = (if written then 0 else if written' then 1 else 0)
      /\ written' = written || (is_metric_file k && truthy (load_json_safe env k))
  | Raised _ => True
  end.
Proof.
  unfold file_effect.
  destruct (other_sections_no_metric_banner (load_json_safe env k)) as (A & B & C).
  destruct (truthy (load_json_safe env k)) eqn:T.
  - destruct k; unfold is_metric_file; cbn [ml_source andb];
      rewrite ?orb_false_r, ?orb_true_r;
      try (destruct (ml_rows _ _) as [values|e]; cbn [obind]; [|exact I];
           rewrite metric_sections_banner; split; [now destruct written|reflexivity]);
      rewrite ?A, ?B, ?C; split; try reflexivity; now destruct written.
  - rewrite andb_false_r, orb_false_r. split; [now destruct written|reflexivity].
Qed.

Lemma files_effect_banner (env : environment) (ks : list file_type) :
  forall written,
    match files_effect env ks written with
    | Returned (l, written') =>
        count_occ string_dec l ml_baselines_banner
        = (if written then 0 else if written' then 1 else 0)
        /\ written'
           = written
             || existsb (fun k => is_metric_file k && truthy (load_json_safe env k)) ks
    | Raised _ => True
    end.
Proof.
  induction ks as [|k rest IH]; intro written.
  - cbn. split; [now destruct written|now rewrite orb_false_r].
  - cbn [files_effect existsb].
    pose proof (file_effect_banner env k written) as E1.
    destruct (file_effect env k written) as [[l1 w1]|e]; cbn [obind snd fst]; [|exact I].
    specialize (IH w1).
    destruct (files_effect env rest w1) as [[l2 w2]|e]; cbn [obind snd fst]; [|exact I].
    destruct E1 as [C1 W1], IH as [C2 W2]. rewrite count_occ_app, C1, C2. split.
    + rewrite W2, W1. destruct written; cbn [orb]; [reflexivity|].
      destruct (is_metric_file k && truthy (load_json_safe env k));
        cbn [orb]; [reflexivity|].
      destruct (existsb _ rest); reflexivity.
    + rewrite W2, W1. now rewrite orb_assoc.
Qed.

(** X11: the banner of section 4 is written once for all the metric
    files. A run adds it when the flag is down and some metric file holds
    a truthy document (also one that gives no row), and adds it once:
    starting from a fresh converter a finished run has the banner once
    among its sections when a metric document was found and not at all
    otherwise; and the flag is then up. *)
Theorem metric_banner_once (env : environment) (st st' : state) (b : bool) :
  convert_all env st = Returned (b, st') ->
  count_occ string_dec (sql_sections st') ml_baselines_banner
  = count_occ string_dec (sql_sections st) ml_baselines_banner
    + (if section4_header_written st then 0
       else if metric_document_present env then 1 else 0)
  /\ section4_header_written st'
     = section4_header_written st || metric_document_present env.
Proof.
  intro C. rewrite convert_all_run in C.
  assert (M : existsb (fun k => is_metric_file k && truthy (load_json_safe env k))
                file_patterns
              = metric_document_present env).
  { unfold metric_document_present, metric_files, file_patterns, is_metric_file.
    cbn [existsb ml_source andb orb]. reflexivity. }
  pose proof (files_effect_banner env file_patterns (section4_header_written st)) as B.
  rewrite <- (files_effect_found env file_patterns) in B.
  fold (detect_json_files env) in B. rewrite M in B.
  assert (S : exists l w,
             files_effect env (detect_json_files env) (section4_header_written st)
             = Returned (l, w)
             /\ sql_sections st' = (sql_sections st ++ l)%list
             /\ section4_header_written st' = w).
  { destruct (detect_json_files env) as [|k ks].
    - injection C as _ <-. exists [], (section4_header_written st).
      now rewrite app_nil_r.
    - destruct (files_effect env (k :: ks) (section4_header_written st)) as [[l w]|e];
        [|discriminate].
      exists l, w. cbn zeta in C.
      destruct (write_fails env); injection C as _ <-; now repeat split. }
  destruct S as (l & w & F & S1 & S2). rewrite F in B. destruct B as [B1 B2].
  rewrite S1, S2, count_occ_app, B1, B2. split; [|reflexivity].
  f_equal. destruct (section4_header_written st); reflexivity.
Qed.

(** X12: a run never takes anything back from the converter. The
    sections it finds are kept and only added to, a raised banner flag
    stays up, and a successful run writes the header, all the sections
    (those found and those added) and the footer: a second run on the
    same converter writes the sections of the first again. *)
Theorem state_only_grows (env : environment) (st st' : state) (b : bool) :
  convert_all env st = Returned (b, st') ->
  exists added,
    sql_sections st' = (sql_sections st ++ added)%list
    /\ (section4_header_written st = true -> section4_header_written st' = true)
    /\ (b = true ->
        output_file st'
        = Some (join (str1 newline) (sql_content env (sql_sections st ++ added)))).
Proof.
  intro C. rewrite convert_all_run in C.
  destruct (detect_json_files env) as [|k ks] eqn:D.
  - injection C as <- <-. exists []. rewrite app_nil_r.
    repeat split; try tauto. discriminate.
  - pose proof (files_effect_banner env (k :: ks) (section4_header_written st)) as B.
    destruct (files_effect env (k :: ks) (section4_header_written st)) as [[l w]|e];
      [|discriminate].
    destruct B as [_ B]. cbn zeta in C. exists l.
    destruct (write_fails env); injection C as <- <-; cbn;
      repeat split; try discriminate; try reflexivity;
      intro H; rewrite B, H; reflexivity.
Qed.

Lemma files_effect_nothing (env : environment) (ks : list file_type) (written : bool) :
  (forall k, In k ks -> has_processor k && truthy (load_json_safe env k) = false) ->
  files_effect env ks written = Returned ([], written).
Proof.
  induction ks as [|k rest IH]; intro H; [reflexivity|].
  cbn [files_effect].
  assert (E : file_effect env k written = Returned ([], written)).
  { specialize (H k (or_introl eq_refl)). unfold file_effect.
    destruct (truthy (load_json_safe env k)); [|reflexivity].
    destruct k; cbn in H; try discriminate; reflexivity. }
  rewrite E. cbn [obind fst snd]. rewrite IH; [reflexivity|].
  intros k' Hin. apply H. now right.
Qed.

(** X13: a file with no processor counts as input and gives nothing.
    When a catalogued file is found but no file with a processor holds a
    truthy document, a fresh converter reports success (unless the write
    fails) and the document it writes is the header and the footer
    alone. *)
Theorem run_with_nothing_to_extract (env : environment) :
  detect_json_files env <> [] ->
  nothing_to_extract env = true ->
  convert_all env init
  = Returned
      (negb (write_fails env),
       if write_fails env then init
       else with_output init
              (join (str1 newline)
                 [generate_header (today env) (now env); generate_footer])).
Proof.
  intros D N. rewrite convert_all_run.
  assert (F : files_effect env file_patterns false = Returned ([], false)).
  { apply files_effect_nothing. intros k _.
    unfold nothing_to_extract in N. rewrite forallb_forall in N.
    apply negb_true_iff. apply N, file_patterns_complete. }
  rewrite <- (files_effect_found env file_patterns) in F.
  fold (detect_json_files env) in F.
  destruct (detect_json_files env) as [|k ks]; [now elim D|].
  cbn [section4_header_written init]. rewrite F. cbn zeta.
  destruct (write_fails env); reflexivity.
Qed.

End Converter.

(* ================================================================= *)
(** ** The claims on concrete inputs *)

(** The examples run with [python_float_repr] and [python_str_repr]. *)

(** C1, as stated, fails for the segment-performance table: a document
    with 1001 records gives 1001 rows and one [INSERT] statement. *)
Lemma segment_performance_1001_rows_one_statement :
  List.length (segment_values python_float_repr python_str_repr segments_1001) = 1001
  /\ exists st',
       process_segment_performance python_float_repr python_str_repr
         segments_1001 init = Returned (tt, st')
       /\ count_statements segment_performance_insert (sql_sections st') = 1.
Proof.
  split; [vm_compute; reflexivity|].
  rewrite process_segment_performance_run. eexists. split; [reflexivity|].
  vm_compute. reflexivity.
Qed.

(** C1 at 1000 and at 1001 anomaly records: one statement, and two. *)
Lemma insert_batching_witness :
  (exists st',
      process_behavioral_anomalies python_float_repr python_str_repr
        (anomalies_of 1000) init = Returned (tt, st')
      /\ count_statements anomalies_insert (sql_sections st') = 1)
  /\ (exists st',
        process_behavioral_anomalies python_float_repr python_str_repr
          (anomalies_of 1001) init = Returned (tt, st')
        /\ count_statements anomalies_insert (sql_sections st') = 2).
Proof.
  split.
  - rewrite (proj1 (insert_batching python_float_repr python_str_repr
                      (anomalies_of 1000) init)).
    eexists. split; [reflexivity|]. vm_compute. reflexivity.
  - rewrite (proj1 (insert_batching python_float_repr python_str_repr
                      (anomalies_of 1001) init)).
    eexists. split; [reflexivity|]. vm_compute. reflexivity.
Defined.

(** C2 in a row: an anomaly record whose [customer_segment] is [true]
    gets the text [True] in its row. *)
Example bool_segment_row :
  anomaly_values python_float_repr python_str_repr
    (VList [VDict [("customer_id", VStr "C1"); ("customer_segment", VBool true)]])
  = ["('C1', 'True', 'Unknown', 'Normal', 0, '')"].
Proof. vm_compute. reflexivity. Qed.

(** C3 at a run whose anomaly file cannot be parsed. *)
Lemma load_failure_contained_witness :
  file_at unreadable_anomalies_run behavioral_anomalies = Unreadable
  /\ process_file python_float_repr python_str_repr unreadable_anomalies_run
       behavioral_anomalies init = Returned (tt, init)
  /\ exists b st',
       convert_all python_float_repr python_str_repr unreadable_anomalies_run init
       = Returned (b, st').
Proof.
  split; [reflexivity|].
  destruct (load_failure_contained python_float_repr python_str_repr
              unreadable_anomalies_run init) as (S & _ & R & _).
  split.
  - exact (proj1 (S behavioral_anomalies [] eq_refl)).
  - apply R. intros k Hin. destruct k; reflexivity.
Defined.

(** C3, as stated, fails on a metric tree whose baseline is a string:
    the [TypeError] of the product leaves [convert_all]. *)
Lemma string_baseline_escapes :
  file_at string_baseline_run ml_baselines = Parsed string_baseline_doc
  /\ convert_all python_float_repr python_str_repr string_baseline_run init
     = Raised TypeError.
Proof. split; vm_compute; reflexivity. Qed.

(** C4, as stated, fails on a record whose [customer_id], [severity]
    and [flags] are present and falsy: none of the three is kept. *)
Lemma falsy_fields_passed_over :
  lookup falsy_fields_record "customer_id" = Some (VStr EmptyString)
  /\ lookup falsy_fields_record "severity" = Some (VInt 0)
  /\ lookup falsy_fields_record "flags" = Some (VBool false)
  /\ customer_id (extract_anomaly python_float_repr python_str_repr
                    falsy_fields_record 0) = VStr "UNKNOWN_0"
  /\ severity (extract_anomaly python_float_repr python_str_repr
                 falsy_fields_record 0) = VInt 7
  /\ flags (extract_anomaly python_float_repr python_str_repr
              falsy_fields_record 0) = VInt 7.
Proof. repeat split. Qed.

(** The record of the specification's example: alternate key spellings,
    and the risk score standing in for severity and flags. *)
Example alternate_keys_resolved :
  extract_anomaly python_float_repr python_str_repr alternate_keys_record 0
  = {| customer_id := VStr "C1";
       customer_segment := VStr "Unknown";
       value_tier := VStr "Unknown";
       severity := VInt 7;
       flags := VInt 7;
       types := VStr EmptyString |}.
Proof. reflexivity. Qed.

(** C5 at the baselines 100 and 0, at a [mean] of 50 without a
    [baseline], and at a metric with neither. *)
Lemma threshold_synthesis_witness :
  metric_fields (VDict [("baseline", VInt 100)])
  = Returned (VInt 100, VFloat 120, VFloat 80)
  /\ metric_fields (VDict [("baseline", VInt 0)])
     = Returned (VInt 0, VInt 0, VInt 0)
  /\ metric_fields (VDict mean_only_metric)
     = Returned (VInt 50, VFloat 60, VFloat 40)
  /\ metric_fields (VDict [("count", VInt 3)])
     = Returned (VFloat 0, VInt 0, VInt 0).
Proof.
  split; [|split; [|split]].
  - exact (proj2 (proj1 (threshold_synthesis [("baseline", VInt 100)]
                           eq_refl eq_refl eq_refl eq_refl)
                    (VInt 100) (or_introl eq_refl))
             100%float eq_refl eq_refl).
  - exact (proj1 (proj1 (threshold_synthesis [("baseline", VInt 0)]
                           eq_refl eq_refl eq_refl eq_refl)
                    (VInt 0) (or_introl eq_refl))
             eq_refl).
  - exact (proj2 (proj1 (threshold_synthesis mean_only_metric
                           eq_refl eq_refl eq_refl eq_refl)
                    (VInt 50) (or_intror (conj eq_refl eq_refl)))
             50%float eq_refl eq_refl).
  - exact (proj2 (threshold_synthesis [("count", VInt 3)]
                    eq_refl eq_refl eq_refl eq_refl)
             eq_refl eq_refl).
Defined.

(** Against C5 as it was stated. A metric with an explicit baseline and
    no threshold key gets no thresholds when the baseline is an [int]
    beyond the floats or a word: the product raises. And a metric whose
    baseline is absent does not get zero thresholds when it has a
    [mean]: the mean is scaled. *)
Lemma synthesized_thresholds_raise_or_follow_mean :
  (lookup huge_baseline_metric "baseline" = Some (VInt (10 ^ 400))
   /\ forallb (fun key => negb (has_key huge_baseline_metric key))
        ["upper_threshold"; "max"; "lower_threshold"; "min"] = true
   /\ metric_fields (VDict huge_baseline_metric) = Raised OverflowError)
  /\ (lookup word_baseline_metric "baseline" = Some (VStr "high")
      /\ forallb (fun key => negb (has_key word_baseline_metric key))
           ["upper_threshold"; "max"; "lower_threshold"; "min"] = true
      /\ metric_fields (VDict word_baseline_metric) = Raised TypeError)
  /\ (lookup mean_only_metric "baseline" = None
      /\ forallb (fun key => negb (has_key mean_only_metric key))
           ["upper_threshold"; "max"; "lower_threshold"; "min"] = true
      /\ metric_fields (VDict mean_only_metric)
         = Returned (VInt 50, VFloat 60, VFloat 40)).
Proof. repeat split; vm_compute; reflexivity. Qed.

(** The row of the metric [{"baseline": 100}]. *)
Example baseline_100_row :
  ml_rows python_float_repr python_str_repr "ml_baselines" baseline_100_doc
  = Returned ["('sales', 'revenue', 100, 120.0, 80.0, 'ml_baselines.json')"].
Proof. vm_compute. reflexivity. Qed.

(** C6 at the document [{"foo": [{"customer_id": "C2", "severity":
    "High"}]}]: one record, with these two fields. And at a document of
    five values: the list under [notes], whose mappings have none of the
    four keys, and the empty list are passed over, the list under [foo]
    is taken whole, and the list under [bar] is not reached. *)
Lemma heuristic_scan_witness :
  (locate_anomaly_records foo_doc
   = [VDict [("customer_id", VStr "C2"); ("severity", VStr "High")]]
   /\ extract_anomalies python_float_repr python_str_repr
        (locate_anomaly_records foo_doc) 0
      = [{| customer_id := VStr "C2";
            customer_segment := VStr "Unknown";
            value_tier := VStr "Unknown";
            severity := VStr "High";
            flags := VInt 0;
            types := VStr EmptyString |}])
  /\ locate_anomaly_records (VDict scan_order_entries)
     = [VDict [("changes", VInt 2)]; VInt 1]
  /\ locate_anomaly_records (VDict [("notes", VList [VDict [("text", VStr "n/a")]])])
     = [].
Proof.
  assert (F : locate_anomaly_records foo_doc
              = [VDict [("customer_id", VStr "C2"); ("severity", VStr "High")]]).
  { apply (proj1 (heuristic_scan foo_entries eq_refl) [] "foo" _ [] eq_refl).
    - intros kv [].
    - exists [("customer_id", VStr "C2"); ("severity", VStr "High")], [], "severity".
      split; [reflexivity|]. split; [cbn; tauto|discriminate]. }
  split; [split; [exact F|rewrite F; reflexivity]|]. split.
  - apply (proj1 (heuristic_scan scan_order_entries eq_refl)
             [("generated", VStr "2024-01-01");
              ("notes", VList [VDict [("text", VStr "n/a")]]);
              ("empty", VList [])]
             "foo" _ [("bar", VList [VDict [("customer_id", VStr "C9")]])] eq_refl).
    + intros kv I K. apply looks_like_anomalies_spec in K.
      destruct I as [<-|[<-|[<-|[]]]]; discriminate K.
    + exists [("changes", VInt 2)], [VInt 1], "changes".
      split; [reflexivity|]. split; [cbn; tauto|discriminate].
  - apply (proj2 (heuristic_scan [("notes", VList [VDict [("text", VStr "n/a")]])]
                    eq_refl)).
    intros kv I K. apply looks_like_anomalies_spec in K.
    destruct I as [<-|[]]; discriminate K.
Defined.

(** C7 at a document that is a string: each method appends its banner
    and nothing else. *)
Lemma unrecognized_document_no_insert_witness :
  process_behavioral_anomalies python_float_repr python_str_repr (VStr "n/a") init
  = Returned (tt, extend init [anomalies_banner])
  /\ process_customer_baselines python_float_repr python_str_repr (VStr "n/a") init
     = Returned (tt, extend init [customer_baselines_banner])
  /\ process_segment_performance python_float_repr python_str_repr (VStr "n/a") init
     = Returned (tt, extend init [segment_performance_banner])
  /\ process_ml_baselines python_float_repr python_str_repr (VStr "n/a")
       "ml_baselines" init
     = Returned (tt, leave init ([ml_baselines_banner], true)).
Proof.
  destruct (unrecognized_document_no_insert python_float_repr python_str_repr
              (VStr "n/a") init)
    as (A1 & B1 & C1 & D1 & A2 & B2 & C2 & D2 & _).
  split; [exact (A2 (A1 eq_refl))|].
  split; [exact (B2 (B1 eq_refl))|].
  split; [exact (C2 (C1 eq_refl))|].
  exact (D2 "ml_baselines" (D1 eq_refl "ml_baselines")).
Defined.

(** C8, as stated, fails when an extractor raises: here a file is
    present and the output could be written, and the run neither
    succeeds nor fails but raises [OverflowError], from [float] of a
    count too large for a float. *)
Lemma huge_count_escapes :
  detect_json_files huge_count_run = [category_baselines]
  /\ write_fails huge_count_run = false
  /\ convert_all python_float_repr python_str_repr huge_count_run init
     = Raised OverflowError.
Proof. repeat split; vm_compute; reflexivity. Qed.

(** C8 at a run whose only file fails to parse: success. *)
Lemma convert_all_result_witness :
  extractors_return python_float_repr python_str_repr unreadable_anomalies_run = true
  /\ exists st',
       convert_all python_float_repr python_str_repr unreadable_anomalies_run init
       = Returned (true, st').
Proof.
  split; [reflexivity|].
  destruct (convert_all_result python_float_repr python_str_repr
              unreadable_anomalies_run init eq_refl) as (b & st' & E & Hb & _).
  exists st'. destruct b; [exact E|].
  destruct (proj1 Hb eq_refl) as [D|W]; discriminate.
Defined.

(** C9 at a run whose anomaly file holds the number 5: no shape
    matches, and the banner of section 1 is in the document. *)
Lemma banner_before_shape_matching_witness :
  truthy (VInt 5) = true
  /\ anomaly_values python_float_repr python_str_repr (VInt 5) = []
  /\ exists st' sections,
       convert_all python_float_repr python_str_repr scalar_anomalies_run init
       = Returned (true, st')
       /\ output_file st'
          = Some (join (str1 newline) (sql_content scalar_anomalies_run sections))
       /\ In anomalies_banner sections.
Proof.
  split; [reflexivity|]. split; [reflexivity|].
  apply (proj2 (proj2 (proj2
           (banner_before_shape_matching python_float_repr python_str_repr
              (VInt 5) init eq_refl)))
           scalar_anomalies_run behavioral_anomalies anomalies_banner).
  - now left.
  - reflexivity.
  - reflexivity.
  - reflexivity.
Defined.

(** C10 at a run whose segment file holds an empty mapping. *)
Lemma falsy_document_skipped_witness :
  file_at empty_segments_run customer_segments = Parsed (VDict [])
  /\ truthy (VDict []) = false
  /\ process_file python_float_repr python_str_repr empty_segments_run
       customer_segments init = Returned (tt, init)
  /\ convert_all python_float_repr python_str_repr empty_segments_run init
     = convert_all python_float_repr python_str_repr
         (with_file empty_segments_run customer_segments Unreadable) init.
Proof.
  split; [reflexivity|]. split; [reflexivity|].
  pose proof (falsy_document_skipped python_float_repr python_str_repr
                empty_segments_run customer_segments (VDict []) init
                eq_refl eq_refl) as [P [_ [C _]]].
  split; [exact P|exact C].
Defined.

(** The end-to-end example of the specification: one anomaly record and
    no other file. The run succeeds and the sections are the banner of
    section 1, one statement with one row, and the empty section. *)
Example one_anomaly_end_to_end :
  exists st',
    convert_all python_float_repr python_str_repr one_anomaly_run init
    = Returned (true, st')
    /\ sql_sections st'
       = [anomalies_banner; anomalies_insert;
          "('C1', 'Unknown', 'Unknown', 'Normal', 0, '');"; EmptyString]
    /\ output_file st'
       = Some (join (str1 newline) (sql_content one_anomaly_run (sql_sections st'))).
Proof. eexists. split; [vm_compute; reflexivity|]. split; reflexivity. Qed.

(* ================================================================= *)
(** ** The further properties on concrete inputs *)

(** X1 at a name with a quote and a line break. *)
Lemma escape_sql_string_one_literal_witness :
  escape_sql_string python_float_repr python_str_repr quoted_name_record
  = "O''Brien & Sons"
  /\ contains_char newline
       (escape_sql_string python_float_repr python_str_repr quoted_name_record) = false
  /\ quotes_paired "'"%char
       (escape_sql_string python_float_repr python_str_repr quoted_name_record) = true.
Proof.
  split; [reflexivity|].
  destruct (escape_sql_string_one_literal python_float_repr python_str_repr
              quoted_name_record eq_refl) as (N & _ & Q & _).
  split; [exact N|exact Q].
Defined.

(** X2 at a path that ends in a backslash: it is returned as it is. *)
Lemma escape_sql_string_clean_witness :
  escape_sql_string python_float_repr python_str_repr (VStr backslash_name)
  = backslash_name.
Proof.
  exact (escape_sql_string_clean python_float_repr python_str_repr backslash_name
           eq_refl eq_refl eq_refl eq_refl).
Defined.

(** X3 at a document whose [customer_baselines] is an empty list: the
    record under [customers] is not found. *)
Lemma first_container_key_decides_witness :
  lookup shadowed_customers_entries "customers"
  = Some (VList [VDict [("customer_id", VStr "C1")]])
  /\ locate_baseline_records (VDict shadowed_customers_entries) = [].
Proof.
  split; [reflexivity|].
  exact (proj1 (proj2 (first_container_key_decides shadowed_customers_entries
                         ["customer_intelligence_records"]
                         ["customers"; "customerintelligencerecords"]
                         "customer_baselines" [] eq_refl eq_refl))
           eq_refl).
Defined.

(** X4 at a list of four elements, the second and the fourth dicts:
    the anomaly placeholders are numbered 0 and 1, the customer-baseline
    ones 1 and 3. *)
Example mixed_records_numbering :
  map customer_id
    (extract_anomalies python_float_repr python_str_repr mixed_records 0)
  = [VStr "UNKNOWN_0"; VStr "UNKNOWN_1"]
  /\ baseline_rows python_float_repr python_str_repr mixed_records 0
     = ["('CUST_000001', 50.0, 0, 0.0, 0, 'Medium', 'Unknown', 0.0, 50.0, 'Standard')";
        "('CUST_000003', 50.0, 0, 0.0, 0, 'Medium', 'Unknown', 0.0, 50.0, 'Standard')"].
Proof. split; vm_compute; reflexivity. Qed.

(** X5 at the same list as an anomaly document: two dicts, one
    statement. *)
Lemma statements_per_document_witness :
  exists st1,
    process_behavioral_anomalies python_float_repr python_str_repr
      (VList mixed_records) init = Returned (tt, st1)
    /\ count_statements anomalies_insert (sql_sections st1) = 1.
Proof.
  destruct (statements_per_document python_float_repr python_str_repr
              (VList mixed_records) init eq_refl)
    as (st1 & _ & _ & P & C & _).
  exists st1. split; [exact P|exact C].
Defined.

(** X6 at a metric with a string baseline and both thresholds given. *)
Lemma metric_fields_raises_witness :
  lookup explicit_thresholds_metric "upper_threshold" = Some (VInt 10)
  /\ lookup explicit_thresholds_metric "lower_threshold" = Some (VInt 1)
  /\ metric_fields (VDict explicit_thresholds_metric) = Raised TypeError.
Proof.
  split; [reflexivity|]. split; [reflexivity|].
  apply (proj1 (metric_fields_raises (VDict explicit_thresholds_metric) TypeError)).
  split; reflexivity.
Defined.


(** X8 at a tree with one good and one bad metric: no row at all. *)
Example one_bad_metric_loses_all :
  ml_rows python_float_repr python_str_repr "ml_baselines"
    (VDict [("sales", VDict [("revenue", VDict [("baseline", VInt 100)]);
                             ("margin", VDict [("baseline", VStr "high")])])])
  = Raised TypeError.
Proof. reflexivity. Qed.

(** X11 at a run with two metric files: one banner, two statements. *)
Lemma metric_banner_once_witness :
  exists b st',
    convert_all python_float_repr python_str_repr two_ml_files_run init
    = Returned (b, st')
    /\ count_occ string_dec (sql_sections st') ml_baselines_banner = 1
    /\ count_statements ml_baselines_insert (sql_sections st') = 2.
Proof.
  destruct (convert_all python_float_repr python_str_repr two_ml_files_run init)
    as [[b st']|e] eqn:E; [|vm_compute in E; discriminate E].
  exists b, st'. split; [reflexivity|]. split.
  - exact (proj1 (metric_banner_once python_float_repr python_str_repr
                    two_ml_files_run init st' b E)).
  - vm_compute in E. injection E as _ <-. reflexivity.
Defined.

(** X12 at two runs on one converter: the second finds the four
    sections of the first and adds them again. *)
Lemma state_only_grows_witness :
  exists st1 st2,
    convert_all python_float_repr python_str_repr one_anomaly_run init
    = Returned (true, st1)
    /\ convert_all python_float_repr python_str_repr one_anomaly_run st1
       = Returned (true, st2)
    /\ sql_sections st2 = (sql_sections st1 ++ sql_sections st1)%list.
Proof.
  destruct (convert_all python_float_repr python_str_repr one_anomaly_run init)
    as [[b1 st1]|e] eqn:E1; [|vm_compute in E1; discriminate E1].
  destruct (convert_all python_float_repr python_str_repr one_anomaly_run st1)
    as [[b2 st2]|e] eqn:E2.
  - destruct (state_only_grows python_float_repr python_str_repr
                one_anomaly_run st1 st2 b2 E2) as (added & A & _).
    exists st1, st2.
    vm_compute in E1. injection E1 as <- <-.
    vm_compute in E2. injection E2 as <- <-.
    repeat split.
  - vm_compute in E1. injection E1 as _ <-. vm_compute in E2. discriminate E2.
Defined.

(** X13 at a folder that holds [customer_rfm_analysis.json] only. *)
Lemma run_with_nothing_to_extract_witness :
  detect_json_files rfm_only_run = [customer_rfm]
  /\ convert_all python_float_repr python_str_repr rfm_only_run init
     = Returned
         (true,
          with_output init
            (join (str1 newline)
               [generate_header (today rfm_only_run) (now rfm_only_run);
                generate_footer])).
Proof.
  split; [reflexivity|].
  apply (run_with_nothing_to_extract python_float_repr python_str_repr rfm_only_run).
  - discriminate.
  - reflexivity.
Defined.
